(** * Repository scanner: list_github_workflow_and_dependency_files.py

    A shallow embedding of the script and the properties of its three
    phases: acquiring the working copy (clone or pull), classifying the
    files of the tree, and printing the report.

    Conventions.
    - A Python [str] is a [string]; text outside ASCII is read as its UTF-8
      bytes, on which searching for the ASCII patterns used by the script
      ("/", ".git", ".yml", ...) gives the same answers.
    - Paths are POSIX paths (separator "/"), the platform on which git
      working copies of the script's kind are walked.
    - In the first part [print] and [subprocess.run] are taken not to
      raise (stdout can encode every line, git is installed); the return
      code is any integer.  The last part lifts this: there a line stdout
      cannot encode and a git that cannot be started raise, and the
      exception nobody catches ends the run with status 1. *)

From Stdlib Require Import String Ascii List Bool Arith ZArith Lia.
Import ListNotations.
Open Scope string_scope.

Set Warnings "-register-all".

(** ** Python string methods used by the script *)

Module Py.

(** [s.startswith(p)] *)
Definition startswith (s p : string) : bool := String.prefix p s.

(** [s.endswith(p)]: the last [len(p)] characters of [s] are [p]. *)
Definition endswith (s p : string) : bool :=
  let n := String.length s in
  let m := String.length p in
  Nat.leb m n && String.eqb (String.substring (n - m) m s) p.

(** [s.endswith((p1, ..., pk))]: some element of the tuple is a suffix. *)
Definition endswith_any (s : string) (ps : list string) : bool :=
  existsb (endswith s) ps.

(** [x in l] for a list of strings. *)
Definition str_in (x : string) (l : list string) : bool :=
  existsb (String.eqb x) l.

(** [c in chars] for a one-character test inside [rstrip]. *)
Fixpoint char_in (c : ascii) (chars : string) : bool :=
  match chars with
  | EmptyString => false
  | String d chars' => Ascii.eqb c d || char_in c chars'
  end.

(** [s.rstrip(chars)]: drop the longest tail made of characters of [chars]. *)
Fixpoint rstrip (chars s : string) : string :=
  match s with
  | EmptyString => EmptyString
  | String c s' =>
      match rstrip chars s' with
      | EmptyString => if char_in c chars then EmptyString else String c EmptyString
      | r => String c r
      end
  end.

(** [s.split(sep)] for a one-character separator: the maximal pieces
    between separators, empty pieces kept; never the empty list. *)
Fixpoint split (sep : ascii) (s : string) : list string :=
  match s with
  | EmptyString => [EmptyString]
  | String c s' =>
      if Ascii.eqb c sep then EmptyString :: split sep s'
      else match split sep s' with
           | h :: t => String c h :: t
           | [] => [String c EmptyString]
           end
  end.

(** [l[-1]] on a non-empty list (every list [split] returns is). *)
Definition last_item (l : list string) : string := List.last l EmptyString.

(** [s.replace(old, new)] for a non-empty [old]: occurrences are found
    left to right and do not overlap.  [skip] counts the characters of
    the occurrence just replaced that are still to be passed over. *)
Fixpoint replace_from (old new : string) (skip : nat) (s : string) : string :=
  match s with
  | EmptyString => EmptyString
  | String c s' =>
      match skip with
      | S k => replace_from old new k s'
      | O =>
          if String.prefix old s
          then new ++ replace_from old new (String.length old - 1) s'
          else String c (replace_from old new 0 s')
      end
  end.

Definition replace (s old new : string) : string := replace_from old new 0 s.

(** [sep.join(l)] *)
Fixpoint join (sep : string) (l : list string) : string :=
  match l with
  | [] => EmptyString
  | [x] => x
  | x :: l' => x ++ sep ++ join sep l'
  end.

End Py.

(** ** The file tree and [os.walk] *)

(** What [os.scandir] finds in a directory, in its order: each entry is a
    name with either a non-directory (a regular file, or anything else
    [is_dir()] rejects) or a directory and its own entries.  A symbolic
    link to a directory is listed among the directories by [os.walk] but
    not descended into ([followlinks] is off), so it contributes no file
    and is left out of the tree. *)
Inductive node : Type :=
| File : node
| Dir : list (string * node) -> node.

Definition listing : Type := list (string * node).

Definition is_dir (k : node) : bool :=
  match k with Dir _ => true | File => false end.

(** The [dirs] and [nondirs] lists of one [os.walk] step. *)
Definition dirs_of (es : listing) : list string :=
  map fst (filter (fun e => is_dir (snd e)) es).

Definition nondirs_of (es : listing) : list string :=
  map fst (filter (fun e => negb (is_dir (snd e))) es).

(** One element yielded by [os.walk]: [(root, dirs, files)].  [root] is
    kept as the list of directory names below the top directory, which is
    what [os.path.relpath(..., REPO_NAME)] recovers from the joined path. *)
Definition walk_item : Type := (list string * list string * list string)%type.

(** [os.walk], top-down: the directory itself first, then each
    sub-directory in listing order. *)
Fixpoint walk_node (root : list string) (k : node) {struct k} : list walk_item :=
  match k with
  | File => []
  | Dir es =>
      (root, dirs_of es, nondirs_of es)
        :: flat_map (fun e => match e with
                              | (name, sub) => walk_node (root ++ [name]) sub
                              end) es
  end.

Definition os_walk (top : listing) : list walk_item := walk_node [] (Dir top).

(** [os.path.relpath(os.path.join(root, file), REPO_NAME)]: for a file
    below the top directory, its components joined by the separator. *)
Definition relpath (root : list string) (file : string) : string :=
  Py.join "/" (root ++ [file]).

(** ** Constants of the script (lines 11-16) *)

Definition DEPENDENCY_FILES : list string :=
  [ "package.json"; "requirements.txt"; "Pipfile";
    "yarn.lock"; "poetry.lock"; "Gemfile"; "composer.json";
    "Cargo.toml"; "go.mod"; "environment.yml"; "env.yml"; "setup.py" ].

Definition WORKFLOW_DIR : string := ".github/workflows".

(** Line 10: [REPO_URL.rstrip("/").split("/")[-1].replace(".git", "")]. *)
Definition REPO_NAME (REPO_URL : string) : string :=
  Py.replace (Py.last_item (Py.split "/" (Py.rstrip "/" REPO_URL))) ".git" "".

(** ** Classification (lines 33-41) *)

(** The two tests of the loop body. *)
Definition is_workflow (rel_path file : string) : bool :=
  Py.startswith rel_path WORKFLOW_DIR && Py.endswith_any file [".yml"; ".yaml"].

Definition is_dependency (file : string) : bool :=
  Py.str_in file DEPENDENCY_FILES.

(** The loop body: the two accumulators before and after one file. *)
Definition classify_file (root : list string)
    (acc : list string * list string) (file : string) : list string * list string :=
  let '(workflow_files, dependency_files) := acc in
  let rel_path := relpath root file in
  let workflow_files :=
    if is_workflow rel_path file then (workflow_files ++ [rel_path])%list else workflow_files in
  let dependency_files :=
    if is_dependency file then (dependency_files ++ [rel_path])%list else dependency_files in
  (workflow_files, dependency_files).

(** [for root, dirs, files in os.walk(...): for file in files: ...] *)
Definition classify_walk (walk : list walk_item) : list string * list string :=
  fold_left
    (fun acc item => match item with
                     | (root, _, files) => fold_left (classify_file root) files acc
                     end)
    walk ([], []).

Definition classify (top : listing) : list string * list string :=
  classify_walk (os_walk top).

Definition workflow_files (top : listing) : list string := fst (classify top).
Definition dependency_files (top : listing) : list string := snd (classify top).

(** ** The script as a whole: effects *)

(** The part of the file system the script looks at: which names exist
    ([os.path.exists]) and, for a name that is a readable directory, its
    tree.  [os.walk] of anything else yields nothing (its [onerror] is
    unset, so the failed [scandir] is swallowed). *)
Record fs : Type := {
  fs_exists : string -> bool;
  fs_listing : string -> option listing
}.

(** What the run does to the outside: lines printed, processes started. *)
Inductive event : Type :=
| Print : string -> event
| Spawn : list string -> event.

Record machine : Type := {
  m_fs : fs;
  m_trace : list event
}.

(** A statement either falls through with a value or leaves the
    interpreter through [sys.exit]. *)
Inductive step (A : Type) : Type :=
| Done : A -> step A
| Exit : Z -> step A.
Arguments Done {A} _.
Arguments Exit {A} _.

Definition script (A : Type) : Type := machine -> step A * machine.

Definition ret {A} (a : A) : script A := fun m => (Done a, m).

Definition bind {A B} (c : script A) (k : A -> script B) : script B :=
  fun m => match c m with
           | (Done a, m') => k a m'
           | (Exit code, m') => (Exit code, m')
           end.

Notation "x <- c ;; k" := (bind c (fun x => k))
  (at level 61, c at next level, right associativity).
Notation "c ;; k" := (bind c (fun _ => k))
  (at level 61, right associativity).

Definition emit (e : event) : script unit :=
  fun m => (Done tt, {| m_fs := m_fs m; m_trace := (m_trace m ++ [e])%list |}).

Definition print (line : string) : script unit := emit (Print line).

Definition sys_exit {A} (code : Z) : script A := fun m => (Exit code, m).

Definition os_path_exists (p : string) : script bool :=
  fun m => (Done (fs_exists (m_fs m) p), m).

Definition walk (top : string) : script (list walk_item) :=
  fun m => (Done match fs_listing (m_fs m) top with
                 | Some es => os_walk es
                 | None => []
                 end, m).

Fixpoint for_each {A} (body : A -> script unit) (l : list A) : script unit :=
  match l with
  | [] => ret tt
  | x :: l' => body x ;; for_each body l'
  end.

Definition newline : string := String "010"%char EmptyString.

Definition usage : string :=
  "Usage: python list_github_workflow_and_dependency_files.py <repo_url>".

(** Python truth value of [REPO_URL]: [None] and the empty string are false. *)
Definition truthy (v : option string) : bool :=
  match v with
  | None => false
  | Some s => negb (String.eqb s EmptyString)
  end.

Definition clone_command (REPO_URL : string) : list string :=
  ["git"; "clone"; "--depth"; "1"; REPO_URL].

Definition pull_command (name : string) : list string :=
  ["git"; "-C"; name; "pull"].

Section Script.

(** The external tool: what running a command line does to the file
    system and the return code it ends with. *)
Variable git : list string -> fs -> Z * fs.

(** [subprocess.run(argv).returncode] *)
Definition subprocess_run (argv : list string) : script Z :=
  fun m =>
    let '(returncode, fs') := git argv (m_fs m) in
    (Done returncode, {| m_fs := fs'; m_trace := (m_trace m ++ [Spawn argv])%list |}).

(** Lines 5-8. *)
Definition check_usage (argv : list string) : script string :=
  let REPO_URL := nth_error argv 1 in
  (if negb (truthy REPO_URL)
   then print usage ;; sys_exit 1
   else ret tt) ;;
  ret (match REPO_URL with Some u => u | None => EmptyString end).

(** Lines 19-30: clone or update the repository. *)
Definition acquire (REPO_URL : string) : script unit :=
  present <- os_path_exists (REPO_NAME REPO_URL) ;;
  if negb present then
    print ("Cloning repository " ++ REPO_URL ++ " ...") ;;
    returncode <- subprocess_run (clone_command REPO_URL) ;;
    if negb (Z.eqb returncode 0) then
      print "Failed to clone repository." ;; sys_exit 2
    else ret tt
  else
    print ("Repository " ++ REPO_NAME REPO_URL
             ++ " already exists. Pulling latest changes ...") ;;
    returncode <- subprocess_run (pull_command (REPO_NAME REPO_URL)) ;;
    if negb (Z.eqb returncode 0) then
      print "Failed to pull latest changes." ;; sys_exit 3
    else ret tt.

(** Lines 43-48 and 50-55: one labelled section of the report. *)
Definition print_section (title : string) (paths : list string) : script unit :=
  print (newline ++ title) ;;
  match paths with
  | _ :: _ => for_each (fun p => print ("  - " ++ p)) paths
  | [] => print "  (none found)"
  end.

Definition report (workflow dependency : list string) : script unit :=
  print_section "Workflow files found:" workflow ;;
  print_section "Dependency files found:" dependency.

(** The whole script. *)
Definition main (argv : list string) : script unit :=
  REPO_URL <- check_usage argv ;;
  acquire REPO_URL ;;
  items <- walk (REPO_NAME REPO_URL) ;;
  let '(workflow, dependency) := classify_walk items in
  report workflow dependency.

(** Exit status of the process and what it left behind. *)
Definition run (argv : list string) (disk : fs) : Z * list event :=
  match main argv {| m_fs := disk; m_trace := [] |} with
  | (Done _, m) => (0%Z, m_trace m)
  | (Exit code, m) => (code, m_trace m)
  end.

End Script.

(** ** Vocabulary of the properties *)

(** A name as a directory entry can have it: no separator inside. *)
Definition entry_name_ok (name : string) : bool := negb (Py.char_in "/" name).

Fixpoint distinct (l : list string) : bool :=
  match l with
  | [] => true
  | x :: l' => negb (Py.str_in x l') && distinct l'
  end.

(** A tree as a file system holds it: in every directory the names are
    free of "/" and pairwise different. *)
Fixpoint well_formed_node (k : node) {struct k} : bool :=
  match k with
  | File => true
  | Dir es =>
      forallb entry_name_ok (map fst es)
      && distinct (map fst es)
      && forallb (fun e => match e with (_, sub) => well_formed_node sub end) es
  end.

Definition well_formed (top : listing) : bool := well_formed_node (Dir top).

(** [file_at p top]: following the components [p] from the top directory
    ends on a non-directory entry. *)
Fixpoint file_at (p : list string) (es : listing) {struct p} : bool :=
  match p with
  | [] => false
  | [f] => existsb (fun e => String.eqb (fst e) f && negb (is_dir (snd e))) es
  | d :: p' =>
      existsb (fun e => String.eqb (fst e) d
                        && match snd e with
                           | Dir sub => file_at p' sub
                           | File => false
                           end) es
  end.

(** The relative path, as the script prints it, of the file with
    components [p], and its filename. *)
Definition path_string (p : list string) : string := Py.join "/" p.
Definition filename (p : list string) : string := Py.last_item p.

(** All relative paths of files in the order the walk meets them. *)
Definition walk_paths (items : list walk_item) : list (list string) :=
  flat_map (fun item => match item with
                        | (root, _, files) => map (fun f => (root ++ [f])%list) files
                        end) items.

Definition file_paths (top : listing) : list (list string) := walk_paths (os_walk top).

(** How often a path string occurs in a sequence. *)
Definition occurrences (s : string) (l : list string) : nat :=
  count_occ string_dec l s.

(** The local name as the specification words it: the final segment of
    the URL without its trailing slashes, minus a [.git] suffix only. *)
Definition remove_suffix (s suffix : string) : string :=
  if Py.endswith s suffix
  then String.substring 0 (String.length s - String.length suffix) s
  else s.

Definition spec_local_name (url : string) : string :=
  remove_suffix (Py.last_item (Py.split "/" (Py.rstrip "/" url))) ".git".

(** A path lies under the directory [.github/workflows]: these are its
    first two components and something follows them. *)
Definition under_workflow_dir (p : list string) : bool :=
  match p with
  | d1 :: d2 :: _ :: _ => String.eqb d1 ".github" && String.eqb d2 "workflows"
  | _ => false
  end.

(** The two tests of the loop body, read on the components of a file. *)
Definition keep_workflow (p : list string) : bool :=
  is_workflow (path_string p) (filename p).

Definition keep_dependency (p : list string) : bool :=
  is_dependency (filename p).

(** The same two tests read on the relative path alone: the filename is
    what follows its last separator. *)
Definition basename (rel_path : string) : string :=
  Py.last_item (Py.split "/" rel_path).

Definition workflow_rule (rel_path : string) : bool :=
  is_workflow rel_path (basename rel_path).

Definition dependency_rule (rel_path : string) : bool :=
  is_dependency (basename rel_path).

(** Relative paths of all files of a tree, in walk order. *)
Definition rel_paths (top : listing) : list string :=
  map path_string (file_paths top).

(** The command lines a run started, in order. *)
Definition spawned (trace : list event) : list (list string) :=
  flat_map (fun e => match e with Spawn argv => [argv] | Print _ => [] end) trace.

(** The lines a run printed, in order. *)
Definition printed (trace : list event) : list string :=
  flat_map (fun e => match e with Print line => [line] | Spawn _ => [] end) trace.

(** The lines of one section of the report, and of the whole report. *)
Definition section_lines (title : string) (paths : list string) : list string :=
  (newline ++ title)
    :: match paths with
       | [] => ["  (none found)"]
       | _ :: _ => map (fun p => "  - " ++ p) paths
       end.

Definition report_lines (found : list string * list string) : list string :=
  (section_lines "Workflow files found:" (fst found)
   ++ section_lines "Dependency files found:" (snd found))%list.

(** What the loop finds under [name] on a disk. *)
Definition found_on (disk : fs) (name : string) : list string * list string :=
  classify_walk match fs_listing disk name with
                | Some es => os_walk es
                | None => []
                end.

(** ** Sample trees and worlds *)

Definition workflows_dir (files : list string) : listing :=
  [ (".github", Dir [ ("workflows", Dir (map (fun f => (f, File)) files)) ]) ].

(** [.github/workflows/go.mod] and nothing else. *)
Definition go_mod_tree : listing := workflows_dir ["go.mod"].

(** A small repository. *)
Definition sample_tree : listing :=
  [ ("README.md", File);
    (".github",
      Dir [ ("workflows",
              Dir [ ("go.mod", File); ("ci.yml", File); ("notes.txt", File);
                    ("environment.yml", File); ("CI.YML", File) ]) ]);
    ("sub", Dir [ ("dir", Dir [ ("package.json", File) ]) ]) ].

(** The same repository with two more files. *)
Definition larger_tree : listing :=
  (("setup.py", File) :: sample_tree ++ [ ("docs", Dir [ ("release.yaml", File) ]) ])%list.

(** A directory next to [.github/workflows] whose name starts alike. *)
Definition sibling_tree : listing :=
  [ (".github", Dir [ ("workflows-old", Dir [ ("ci.yml", File) ]) ]) ].

Definition no_disk : fs :=
  {| fs_exists := fun _ => false; fs_listing := fun _ => None |}.

Definition disk_with (name : string) (top : listing) : fs :=
  {| fs_exists := String.eqb name;
     fs_listing := fun p => if String.eqb name p then Some top else None |}.

(** A git that fails, leaving the disk alone, and one that succeeds and
    leaves [top] under [name]. *)
Definition git_fails (code : Z) (argv : list string) (disk : fs) : Z * fs :=
  (code, disk).

Definition git_leaves (name : string) (top : listing)
    (argv : list string) (disk : fs) : Z * fs :=
  (0%Z, disk_with name top).

(** [dir_at p top]: following the components [p] from the top directory
    ends on a directory. *)
Fixpoint dir_at (p : list string) (es : listing) {struct p} : bool :=
  match p with
  | [] => false
  | [d] => existsb (fun e => String.eqb (fst e) d && is_dir (snd e)) es
  | d :: p' =>
      existsb (fun e => String.eqb (fst e) d
                        && match snd e with
                           | Dir sub => dir_at p' sub
                           | File => false
                           end) es
  end.

(** A repository with a project of its own one level down, and
    directories whose names look like files. *)
Definition monorepo_tree : listing :=
  [ ("setup.py", File);
    (".github", Dir [ ("workflows", Dir [ ("release.yaml", File);
                                          ("reusable", Dir [ ("lint.yml", File) ]);
                                          ("build.yml", Dir []) ]) ]);
    ("package.json", Dir [ ("index.js", File) ]);
    ("service", Dir [ (".github", Dir [ ("workflows", Dir [ ("ci.yml", File) ]) ]);
                      ("go.mod", File);
                      ("Cargo.toml", File) ]) ].

(** ** The script with the exceptions nobody catches *)

(** The statements of the script once more, over the two calls that can
    raise: [say] for [print] and [start] for [subprocess.run]. *)
Section Statements.

Variable say : string -> script unit.
Variable start : list string -> script Z.

(** Lines 5-8. *)
Definition check_usage_with (argv : list string) : script string :=
  let REPO_URL := nth_error argv 1 in
  (if negb (truthy REPO_URL)
   then say usage ;; sys_exit 1
   else ret tt) ;;
  ret (match REPO_URL with Some u => u | None => EmptyString end).

(** Lines 19-30. *)
Definition acquire_with (REPO_URL : string) : script unit :=
  present <- os_path_exists (REPO_NAME REPO_URL) ;;
  if negb present then
    say ("Cloning repository " ++ REPO_URL ++ " ...") ;;
    returncode <- start (clone_command REPO_URL) ;;
    if negb (Z.eqb returncode 0) then
      say "Failed to clone repository." ;; sys_exit 2
    else ret tt
  else
    say ("Repository " ++ REPO_NAME REPO_URL
           ++ " already exists. Pulling latest changes ...") ;;
    returncode <- start (pull_command (REPO_NAME REPO_URL)) ;;
    if negb (Z.eqb returncode 0) then
      say "Failed to pull latest changes." ;; sys_exit 3
    else ret tt.

(** Lines 43-48 and 50-55. *)
Definition print_section_with (title : string) (paths : list string) : script unit :=
  say (newline ++ title) ;;
  match paths with
  | _ :: _ => for_each (fun p => say ("  - " ++ p)) paths
  | [] => say "  (none found)"
  end.

Definition report_with (workflow dependency : list string) : script unit :=
  print_section_with "Workflow files found:" workflow ;;
  print_section_with "Dependency files found:" dependency.

Definition main_with (argv : list string) : script unit :=
  REPO_URL <- check_usage_with argv ;;
  acquire_with REPO_URL ;;
  items <- walk (REPO_NAME REPO_URL) ;;
  let '(workflow, dependency) := classify_walk items in
  report_with workflow dependency.

End Statements.

(** An exception that reaches the top level ends the interpreter with
    status 1.  Its traceback goes to stderr, which the trace leaves out. *)
Definition uncaught {A} : script A := sys_exit 1.

(** [print(line)] on a stdout whose encoding takes the lines [encodable]
    accepts: any other line raises [UnicodeEncodeError] before anything
    of it is written. *)
Definition print_or_raise (encodable : string -> bool) (line : string) : script unit :=
  if encodable line then print line else uncaught.

(** [subprocess.run(argv).returncode] when the tool may be missing:
    [tool argv disk] is [None] if the program cannot be started, in which
    case the call raises and no process runs. *)
Definition run_or_raise (tool : list string -> fs -> option (Z * fs))
    (argv : list string) : script Z :=
  fun m =>
    match tool argv (m_fs m) with
    | Some (returncode, fs') =>
        (Done returncode,
         {| m_fs := fs'; m_trace := (m_trace m ++ [Spawn argv])%list |})
    | None => uncaught m
    end.

(** The whole script, exceptions included. *)
Definition run_with_exceptions (encodable : string -> bool)
    (tool : list string -> fs -> option (Z * fs))
    (argv : list string) (disk : fs) : Z * list event :=
  match main_with (print_or_raise encodable) (run_or_raise tool) argv
          {| m_fs := disk; m_trace := [] |} with
  | (Done _, m) => (0%Z, m_trace m)
  | (Exit code, m) => (code, m_trace m)
  end.

(** The lines printed before the first one that cannot be encoded. *)
Fixpoint printable_prefix (encodable : string -> bool) (lines : list string)
  : list string :=
  match lines with
  | [] => []
  | line :: lines' =>
      if encodable line then line :: printable_prefix encodable lines' else []
  end.

(** A stdout that takes ASCII only, and a machine without git. *)
Definition ascii_only (line : string) : bool :=
  forallb (fun c => Nat.ltb (nat_of_ascii c) 128) (list_ascii_of_string line).

Definition no_git (argv : list string) (disk : fs) : option (Z * fs) := None.

(** A stdout that takes every line, a git that always starts, and a name
    holding a byte outside ASCII. *)
Definition any_line (line : string) : bool := true.

Definition starts (git : list string -> fs -> Z * fs)
    (argv : list string) (disk : fs) : option (Z * fs) :=
  Some (git argv disk).

Definition odd_name : string := String "233"%char ".yml".

(** * Properties *)

(** ** The definitions at work *)

Example split_url :
  Py.split "/" "https://example.com/foo.git"
  = ["https:"; ""; "example.com"; "foo.git"].
Proof. reflexivity. Qed.

Example split_edges :
  Py.split "/" "" = [""] /\ Py.split "/" "/" = [""; ""] /\ Py.split "/" "a//b" = ["a"; ""; "b"].
Proof. repeat split. Qed.

Example rstrip_slashes :
  Py.rstrip "/" "a/b//" = "a/b" /\ Py.rstrip "/" "///" = "" /\ Py.rstrip "/" "/a" = "/a".
Proof. repeat split. Qed.

Example replace_leftmost_first :
  Py.replace "x.git.git.gi.gitt" ".git" "" = "x.git"
  /\ Py.replace "aaa" "aa" "b" = "ba".
Proof. split; reflexivity. Qed.

Example endswith_cases :
  Py.endswith "ci.yml" ".yml" = true
  /\ Py.endswith "yml" ".yml" = false
  /\ Py.endswith "ci.YML" ".yml" = false
  /\ Py.endswith ".yml" ".yml" = true.
Proof. repeat split. Qed.

Example walk_sample :
  os_walk sample_tree
  = [ ([], [".github"; "sub"], ["README.md"]);
      ([".github"], ["workflows"], []);
      ([".github"; "workflows"], [],
       ["go.mod"; "ci.yml"; "notes.txt"; "environment.yml"; "CI.YML"]);
      (["sub"], ["dir"], []);
      (["sub"; "dir"], [], ["package.json"]) ].
Proof. reflexivity. Qed.

Example classify_sample :
  classify sample_tree
  = ( [".github/workflows/ci.yml"; ".github/workflows/environment.yml"],
      [".github/workflows/go.mod"; ".github/workflows/environment.yml";
       "sub/dir/package.json"] ).
Proof. reflexivity. Qed.

Example run_sample :
  run (git_leaves "foo" sample_tree) ["scan.py"; "https://example.com/foo.git"] no_disk
  = (0%Z,
     [ Print "Cloning repository https://example.com/foo.git ...";
       Spawn ["git"; "clone"; "--depth"; "1"; "https://example.com/foo.git"];
       Print (newline ++ "Workflow files found:");
       Print "  - .github/workflows/ci.yml";
       Print "  - .github/workflows/environment.yml";
       Print (newline ++ "Dependency files found:");
       Print "  - .github/workflows/go.mod";
       Print "  - .github/workflows/environment.yml";
       Print "  - sub/dir/package.json" ]).
Proof. reflexivity. Qed.

(** ** The string methods do what their Python names say *)

Lemma startswith_iff (s p : string) :
  Py.startswith s p = true <-> exists r, s = p ++ r.
Proof.
  unfold Py.startswith. revert s.
  induction p as [|c p IH]; intros s; simpl.
  - split; [intros _; exists s; reflexivity | intros _; destruct s; reflexivity].
  - destruct s as [|d s]; simpl.
    + split; [discriminate | intros [r Hr]; discriminate].
    + destruct (ascii_dec c d) as [->|Hcd].
      * rewrite IH. split; intros [r Hr]; exists r.
        -- now rewrite Hr.
        -- now inversion Hr.
      * split; [discriminate | intros [r Hr]; inversion Hr; congruence].
Qed.

Lemma length_app (r p : string) :
  String.length (r ++ p) = String.length r + String.length p.
Proof. induction r as [|c r IH]; simpl; [reflexivity | now rewrite IH]. Qed.

Lemma substring_app_right (r p : string) :
  String.substring (String.length r) (String.length p) (r ++ p) = p.
Proof.
  induction r as [|c r IH]; simpl.
  - induction p as [|d p IHp]; simpl; [reflexivity|].
    now rewrite IHp.
  - exact IH.
Qed.

Lemma substring_split (s : string) (k : nat) :
  k <= String.length s ->
  s = String.substring 0 k s ++ String.substring k (String.length s - k) s.
Proof.
  revert k. induction s as [|c s IH]; intros k Hk; simpl in *.
  - destruct k; [reflexivity | lia].
  - destruct k as [|k]; simpl.
    + f_equal. clear. induction s as [|d s IHs]; simpl; [reflexivity|].
      now rewrite <- IHs.
    + f_equal. apply IH. lia.
Qed.

Lemma endswith_iff (s p : string) :
  Py.endswith s p = true <-> exists r, s = r ++ p.
Proof.
  unfold Py.endswith. rewrite andb_true_iff, Nat.leb_le, String.eqb_eq.
  split.
  - intros [Hle Heq].
    exists (String.substring 0 (String.length s - String.length p) s).
    rewrite (substring_split s (String.length s - String.length p)) at 1 by lia.
    f_equal.
    replace (String.length s - (String.length s - String.length p))
      with (String.length p) by lia.
    exact Heq.
  - intros [r ->]. rewrite length_app. split; [lia|].
    replace (String.length r + String.length p - String.length p)
      with (String.length r) by lia.
    apply substring_app_right.
Qed.

Lemma str_in_iff (x : string) (l : list string) :
  Py.str_in x l = true <-> In x l.
Proof.
  unfold Py.str_in. rewrite existsb_exists. split.
  - intros [y [Hy Heq]]. apply String.eqb_eq in Heq. now subst.
  - intros H. exists x. split; [assumption | apply String.eqb_refl].
Qed.

(** Splitting undoes joining, as long as no piece holds the separator. *)

Lemma split_not_nil (sep : ascii) (s : string) : Py.split sep s <> [].
Proof.
  destruct s as [|c s]; simpl; [discriminate|].
  destruct (Ascii.eqb c sep); [discriminate|].
  destruct (Py.split sep s); discriminate.
Qed.

Lemma split_piece (sep : ascii) (x rest : string) :
  Py.char_in sep x = false ->
  Py.split sep (x ++ String sep rest) = x :: Py.split sep rest.
Proof.
  induction x as [|c x IH]; simpl; intros H.
  - now rewrite Ascii.eqb_refl.
  - apply orb_false_iff in H as [Hc Hx].
    rewrite Ascii.eqb_sym, Hc, (IH Hx). reflexivity.
Qed.

Lemma split_single (sep : ascii) (x : string) :
  Py.char_in sep x = false -> Py.split sep x = [x].
Proof.
  induction x as [|c x IH]; simpl; intros H; [reflexivity|].
  apply orb_false_iff in H as [Hc Hx].
  rewrite Ascii.eqb_sym, Hc, (IH Hx). reflexivity.
Qed.

Lemma split_join (sep : ascii) (l : list string) :
  l <> [] ->
  Forall (fun x => Py.char_in sep x = false) l ->
  Py.split sep (Py.join (String sep EmptyString) l) = l.
Proof.
  induction l as [|x l IH]; intros Hne Hall; [congruence|].
  inversion Hall as [|? ? Hx Hl]; subst.
  destruct l as [|y l].
  - simpl. now apply split_single.
  - change (Py.join (String sep "") (x :: y :: l))
      with (x ++ String sep (Py.join (String sep "") (y :: l))).
    rewrite split_piece by assumption.
    f_equal. apply IH; [discriminate | assumption].
Qed.

(** ** The walk meets every file of the tree, once *)

(** Induction over a tree: a property of a listing follows from the
    property of the listings of its sub-directories. *)
Lemma listing_induction (P : listing -> Prop) :
  (forall es, (forall name sub, In (name, Dir sub) es -> P sub) -> P es) ->
  forall es, P es.
Proof.
  intros H.
  assert (HQ : forall k, match k with Dir es => P es | File => True end).
  { fix IH 1. intros [|es]; [exact I|].
    apply H. revert es.
    fix IHes 1. intros [|[n k] es] name sub Hin.
    - destruct Hin.
    - destruct Hin as [Heq|Hin].
      + pose proof (IH k) as Hk.
        replace k with (Dir sub) in Hk by congruence. exact Hk.
      + exact (IHes es name sub Hin). }
  intros es. exact (HQ (Dir es)).
Qed.

Lemma walk_paths_app (l1 l2 : list walk_item) :
  walk_paths (l1 ++ l2) = (walk_paths l1 ++ walk_paths l2)%list.
Proof. apply flat_map_app. Qed.

Lemma walk_paths_flat_map {A} (f : A -> list walk_item) (l : list A) :
  walk_paths (flat_map f l) = flat_map (fun x => walk_paths (f x)) l.
Proof.
  induction l as [|x l IH]; simpl; [reflexivity|].
  now rewrite walk_paths_app, IH.
Qed.

(** The paths the walk of a directory yields: its own files, then what
    the walks of its entries yield. *)
Lemma walk_paths_dir (root : list string) (es : listing) :
  walk_paths (walk_node root (Dir es))
  = (map (fun f => root ++ [f]) (nondirs_of es)
     ++ flat_map (fun e => walk_paths (walk_node (root ++ [fst e]) (snd e))) es)%list.
Proof.
  simpl. f_equal. rewrite walk_paths_flat_map.
  apply flat_map_ext. intros [name sub]. reflexivity.
Qed.

Lemma file_at_not_nil (p : list string) (es : listing) :
  file_at p es = true -> p <> [].
Proof. destruct p; [discriminate | discriminate]. Qed.

Lemma file_at_single (f : string) (es : listing) :
  file_at [f] es = true <-> In f (nondirs_of es).
Proof.
  simpl. rewrite existsb_exists. unfold nondirs_of. rewrite in_map_iff.
  split.
  - intros [e [He Hc]]. apply andb_true_iff in Hc as [Hn Hk].
    apply String.eqb_eq in Hn. exists e. split; [assumption|].
    apply filter_In. now split.
  - intros [e [Hn He]]. apply filter_In in He as [He Hk].
    exists e. split; [assumption|].
    apply andb_true_iff. split; [now apply String.eqb_eq | assumption].
Qed.

Lemma file_at_cons (d : string) (p : list string) (es : listing) :
  p <> [] ->
  (file_at (d :: p) es = true
   <-> exists sub, In (d, Dir sub) es /\ file_at p sub = true).
Proof.
  intros Hp. destruct p as [|x p]; [congruence|].
  change (file_at (d :: x :: p) es)
    with (existsb (fun e => String.eqb (fst e) d
                            && match snd e with
                               | Dir sub => file_at (x :: p) sub
                               | File => false
                               end) es).
  rewrite existsb_exists. split.
  - intros [[name k] [He Hc]]. simpl in Hc.
    apply andb_true_iff in Hc as [Hn Hk]. apply String.eqb_eq in Hn. subst name.
    destruct k as [|sub]; [discriminate|]. now exists sub.
  - intros [sub [He Hf]]. exists (d, Dir sub). split; [assumption|].
    simpl. apply andb_true_iff. split; [apply String.eqb_refl | assumption].
Qed.

(** The walk yields exactly the paths of the files of the tree. *)
Lemma in_walk_paths (es : listing) :
  forall root p,
    In p (walk_paths (walk_node root (Dir es)))
    <-> exists q, p = (root ++ q)%list /\ file_at q es = true.
Proof.
  induction es as [es IH] using listing_induction. intros root p.
  rewrite walk_paths_dir, in_app_iff, in_map_iff, in_flat_map. split.
  - intros [[f [Hp Hf]] | [[name k] [He Hin]]].
    + exists [f]. split; [now symmetry | now apply file_at_single].
    + simpl in Hin. destruct k as [|sub]; [destruct Hin|].
      apply (IH name sub He) in Hin as [q [Hp Hq]].
      exists (name :: q). split.
      * now rewrite Hp, <- app_assoc.
      * apply file_at_cons; [now apply file_at_not_nil in Hq|].
        now exists sub.
  - intros [q [Hp Hq]]. destruct q as [|d q]; [discriminate|].
    destruct q as [|x q].
    + left. exists d. split; [now symmetry | now apply file_at_single].
    + right. apply file_at_cons in Hq as [sub [He Hq]]; [|discriminate].
      exists (d, Dir sub). split; [assumption|]. simpl.
      apply (IH d sub He). exists (x :: q). split; [|assumption].
      now rewrite Hp, <- app_assoc.
Qed.

Lemma in_file_paths (top : listing) (p : list string) :
  In p (file_paths top) <-> file_at p top = true.
Proof.
  unfold file_paths, os_walk. rewrite in_walk_paths. simpl. split.
  - now intros [q [-> Hq]].
  - intros H. now exists p.
Qed.

Lemma distinct_NoDup (l : list string) : distinct l = true -> NoDup l.
Proof.
  induction l as [|x l IH]; simpl; intros H; constructor;
    apply andb_true_iff in H as [Hx Hl].
  - intros Hin. apply str_in_iff in Hin. rewrite Hin in Hx. discriminate.
  - now apply IH.
Qed.

Lemma well_formed_dir (es : listing) :
  well_formed_node (Dir es) = true ->
  Forall (fun x => Py.char_in "/" x = false) (map fst es)
  /\ NoDup (map fst es)
  /\ forall name sub, In (name, sub) es -> well_formed_node sub = true.
Proof.
  simpl. intros H.
  apply andb_true_iff in H as [H Hsub]. apply andb_true_iff in H as [Hok Hd].
  split; [|split].
  - apply Forall_forall. intros x Hx.
    rewrite forallb_forall in Hok. apply Hok in Hx.
    unfold entry_name_ok in Hx. now apply negb_true_iff in Hx.
  - now apply distinct_NoDup.
  - intros name sub Hin. rewrite forallb_forall in Hsub.
    exact (Hsub (name, sub) Hin).
Qed.

(** Along a path to a file, every component is an admissible name. *)
Lemma file_at_names_ok (p : list string) :
  forall es, well_formed_node (Dir es) = true -> file_at p es = true ->
             Forall (fun x => Py.char_in "/" x = false) p.
Proof.
  induction p as [|d p IH]; intros es Hwf Hp; [constructor|].
  destruct (well_formed_dir es Hwf) as [Hok [_ Hsub]].
  rewrite Forall_forall in Hok.
  destruct p as [|x p].
  - constructor; [|constructor].
    apply file_at_single in Hp. unfold nondirs_of in Hp.
    apply in_map_iff in Hp as [e [<- He]]. apply filter_In in He as [He _].
    apply Hok. now apply in_map.
  - apply file_at_cons in Hp as [sub [He Hp]]; [|discriminate].
    constructor.
    + apply Hok. now apply (in_map fst) in He.
    + exact (IH sub (Hsub d (Dir sub) He) Hp).
Qed.

Lemma NoDup_nondirs (es : listing) :
  NoDup (map fst es) -> NoDup (nondirs_of es).
Proof.
  unfold nondirs_of. induction es as [|e es IH]; simpl; intros H; [constructor|].
  apply NoDup_cons_iff in H as [Hx Hl].
  destruct (negb (is_dir (snd e))); simpl; [|now apply IH].
  constructor; [|now apply IH].
  intros Hin. apply Hx. apply in_map_iff in Hin as [e' [Hn He']].
  apply filter_In in He' as [He' _]. rewrite <- Hn. now apply in_map.
Qed.

(** In a well-formed tree no two files of the walk have the same
    components. *)
Lemma NoDup_walk_paths (es : listing) :
  forall root, well_formed_node (Dir es) = true ->
               NoDup (walk_paths (walk_node root (Dir es))).
Proof.
  induction es as [es IH] using listing_induction. intros root Hwf.
  destruct (well_formed_dir es Hwf) as [_ [Hnd Hsub]].
  rewrite walk_paths_dir. apply NoDup_app.
  - apply NoDup_map_NoDup_ForallPairs; [|now apply NoDup_nondirs].
    intros f g _ _ Heq. apply app_inv_head in Heq. now inversion Heq.
  - assert (Hall : forall name sub, In (name, Dir sub) es ->
                     NoDup (walk_paths (walk_node (root ++ [name]) (Dir sub)))).
    { intros name sub He. apply (IH name sub He). exact (Hsub _ _ He). }
    clear IH Hwf Hsub. induction es as [|[name k] es IHes]; simpl; [constructor|].
    apply NoDup_cons_iff in Hnd as [Hname Hnd].
    apply NoDup_app.
    + destruct k as [|sub]; [constructor|]. apply Hall. now left.
    + apply IHes; [assumption|]. intros n s He. apply Hall. now right.
    + intros p Hp Hq. destruct k as [|sub]; [destruct Hp|].
      apply in_walk_paths in Hp as [q [Hp _]].
      apply in_flat_map in Hq as [[name' k'] [He' Hq]]. simpl in Hq.
      destruct k' as [|sub']; [destruct Hq|].
      apply in_walk_paths in Hq as [q' [Hq _]].
      rewrite Hp, <- !app_assoc in Hq. apply app_inv_head in Hq.
      inversion Hq; subst name'.
      apply Hname. now apply (in_map fst) in He'.
  - intros p Hp Hq.
    apply in_map_iff in Hp as [f [Hp _]].
    apply in_flat_map in Hq as [[name k] [He Hq]]. simpl in Hq.
    destruct k as [|sub]; [destruct Hq|].
    apply in_walk_paths in Hq as [q [Hq Hfile]].
    apply file_at_not_nil in Hfile.
    rewrite <- Hp, <- app_assoc in Hq. apply app_inv_head in Hq.
    inversion Hq; subst. congruence.
Qed.

Lemma path_string_injective (top : listing) (p q : list string) :
  well_formed top = true ->
  file_at p top = true -> file_at q top = true ->
  path_string p = path_string q -> p = q.
Proof.
  intros Hwf Hp Hq Heq.
  rewrite <- (split_join "/" p), <- (split_join "/" q).
  - unfold path_string in Heq. now rewrite Heq.
  - now apply file_at_not_nil in Hq.
  - exact (file_at_names_ok q top Hwf Hq).
  - now apply file_at_not_nil in Hp.
  - exact (file_at_names_ok p top Hwf Hp).
Qed.

(** In a well-formed tree no two files have the same relative path. *)
Lemma NoDup_path_strings (top : listing) :
  well_formed top = true -> NoDup (map path_string (file_paths top)).
Proof.
  intros Hwf. apply NoDup_map_NoDup_ForallPairs.
  - intros p q Hp Hq. apply in_file_paths in Hp, Hq.
    now apply (path_string_injective top).
  - now apply NoDup_walk_paths.
Qed.

(** ** The loop computes two filters of the walk *)

Lemma classify_file_step (root : list string) (a b : list string) (file : string) :
  classify_file root (a, b) file
  = ((a ++ map path_string (filter keep_workflow [(root ++ [file])%list]))%list,
     (b ++ map path_string (filter keep_dependency [(root ++ [file])%list]))%list).
Proof.
  unfold classify_file, keep_workflow, keep_dependency, filename, Py.last_item.
  unfold relpath, path_string. simpl. rewrite last_last.
  destruct (is_workflow _ file), (is_dependency file); simpl;
    now rewrite ?app_nil_r.
Qed.

Lemma classify_files_fold (root : list string) (files : list string) :
  forall a b,
    fold_left (classify_file root) files (a, b)
    = ((a ++ map path_string
               (filter keep_workflow (map (fun f => root ++ [f]) files)))%list,
       (b ++ map path_string
               (filter keep_dependency (map (fun f => root ++ [f]) files)))%list).
Proof.
  induction files as [|f files IH]; intros a b.
  - simpl. now rewrite !app_nil_r.
  - change (fold_left (classify_file root) (f :: files) (a, b))
      with (fold_left (classify_file root) files (classify_file root (a, b) f)).
    rewrite classify_file_step, IH. cbn [map].
    change ((root ++ [f]) :: map (fun f0 => root ++ [f0]) files)%list
      with ([(root ++ [f])%list] ++ map (fun f0 => (root ++ [f0])%list) files)%list.
    now rewrite !filter_app, !map_app, !app_assoc.
Qed.

Lemma classify_walk_fold (items : list walk_item) :
  forall a b,
    fold_left
      (fun acc item => match item with
                       | (root, _, files) => fold_left (classify_file root) files acc
                       end)
      items (a, b)
    = ((a ++ map path_string (filter keep_workflow (walk_paths items)))%list,
       (b ++ map path_string (filter keep_dependency (walk_paths items)))%list).
Proof.
  induction items as [|[[root dirs] files] items IH]; intros a b.
  - simpl. now rewrite !app_nil_r.
  - cbn [fold_left]. rewrite classify_files_fold, IH.
    change (walk_paths ((root, dirs, files) :: items))
      with (map (fun f => (root ++ [f])%list) files ++ walk_paths items)%list.
    now rewrite !filter_app, !map_app, !app_assoc.
Qed.

Lemma workflow_files_filter (top : listing) :
  workflow_files top = map path_string (filter keep_workflow (file_paths top)).
Proof.
  unfold workflow_files, classify, classify_walk.
  now rewrite classify_walk_fold.
Qed.

Lemma dependency_files_filter (top : listing) :
  dependency_files top = map path_string (filter keep_dependency (file_paths top)).
Proof.
  unfold dependency_files, classify, classify_walk.
  now rewrite classify_walk_fold.
Qed.

(** Counting in a filtered list whose images are pairwise different. *)
Lemma occurrences_filter {A} (f : A -> string) (keep : A -> bool) (l : list A) (x : A) :
  NoDup (map f l) -> In x l ->
  occurrences (f x) (map f (filter keep l)) = if keep x then 1 else 0.
Proof.
  unfold occurrences. induction l as [|a l IH]; intros Hnd Hin; [destruct Hin|].
  simpl in Hnd. apply NoDup_cons_iff in Hnd as [Ha Hnd].
  assert (Hzero : forall y, ~ In y (map f l) ->
                    count_occ string_dec (map f (filter keep l)) y = 0).
  { intros y Hy. apply count_occ_not_In. intros Hin'. apply Hy.
    apply in_map_iff in Hin' as [z [Hz Hin']]. apply filter_In in Hin' as [Hin' _].
    rewrite <- Hz. now apply in_map. }
  destruct Hin as [->|Hin].
  - simpl. destruct (keep x); simpl.
    + destruct (string_dec (f x) (f x)); [|congruence]. now rewrite Hzero.
    + now apply Hzero.
  - assert (Hneq : f a <> f x).
    { intros Heq. apply Ha. rewrite Heq. now apply in_map. }
    simpl. destruct (keep a); simpl.
    + destruct (string_dec (f a) (f x)); [congruence|]. now apply IH.
    + now apply IH.
Qed.

(** A file of a well-formed tree is listed as a workflow file once if it
    passes the workflow test and not at all otherwise; likewise for the
    dependency test. *)
Lemma workflow_occurrences (top : listing) (p : list string) :
  well_formed top = true -> file_at p top = true ->
  occurrences (path_string p) (workflow_files top) = if keep_workflow p then 1 else 0.
Proof.
  intros Hwf Hp. rewrite workflow_files_filter.
  apply occurrences_filter; [now apply NoDup_path_strings | now apply in_file_paths].
Qed.

Lemma dependency_occurrences (top : listing) (p : list string) :
  well_formed top = true -> file_at p top = true ->
  occurrences (path_string p) (dependency_files top) = if keep_dependency p then 1 else 0.
Proof.
  intros Hwf Hp. rewrite dependency_files_filter.
  apply occurrences_filter; [now apply NoDup_path_strings | now apply in_file_paths].
Qed.

(** ** The tests of the loop, in words *)

Lemma keep_workflow_unfold (p : list string) :
  keep_workflow p
  = Py.startswith (path_string p) ".github/workflows"
    && (Py.endswith (filename p) ".yml" || Py.endswith (filename p) ".yaml").
Proof.
  unfold keep_workflow, is_workflow, Py.endswith_any, WORKFLOW_DIR. simpl.
  now rewrite orb_false_r.
Qed.

Lemma keep_workflow_iff (p : list string) :
  keep_workflow p = true
  <-> (exists rest, path_string p = ".github/workflows" ++ rest)
      /\ exists stem, filename p = stem ++ ".yml" \/ filename p = stem ++ ".yaml".
Proof.
  rewrite keep_workflow_unfold, andb_true_iff, orb_true_iff.
  rewrite startswith_iff, !endswith_iff. split.
  - intros [Hpre [[stem H]|[stem H]]]; (split; [assumption|]); exists stem; tauto.
  - intros [Hpre [stem [H|H]]]; (split; [assumption|]); [left|right]; now exists stem.
Qed.

Lemma filename_last (root : list string) (file : string) :
  filename (root ++ [file]) = file.
Proof. unfold filename, Py.last_item. apply last_last. Qed.

(** For a file of a well-formed tree the filename can be read off the
    relative path. *)
Lemma basename_path_string (top : listing) (p : list string) :
  well_formed top = true -> file_at p top = true ->
  basename (path_string p) = filename p.
Proof.
  intros Hwf Hp. unfold basename, path_string.
  rewrite (split_join "/" p); [reflexivity | |].
  - now apply file_at_not_nil in Hp.
  - exact (file_at_names_ok p top Hwf Hp).
Qed.

Lemma map_filter_agree {A B} (f : A -> B) (keep : A -> bool) (rule : B -> bool)
    (l : list A) :
  (forall x, In x l -> keep x = rule (f x)) ->
  map f (filter keep l) = filter rule (map f l).
Proof.
  induction l as [|x l IH]; intros H; simpl; [reflexivity|].
  rewrite <- (H x) by now left.
  destruct (keep x); simpl; rewrite IH; auto; intros y Hy; apply H; now right.
Qed.

Lemma workflow_files_rule (top : listing) :
  well_formed top = true ->
  workflow_files top = filter workflow_rule (rel_paths top).
Proof.
  intros Hwf. rewrite workflow_files_filter. apply map_filter_agree.
  intros p Hp. apply in_file_paths in Hp.
  unfold workflow_rule, keep_workflow. now rewrite (basename_path_string top).
Qed.

Lemma dependency_files_rule (top : listing) :
  well_formed top = true ->
  dependency_files top = filter dependency_rule (rel_paths top).
Proof.
  intros Hwf. rewrite dependency_files_filter. apply map_filter_agree.
  intros p Hp. apply in_file_paths in Hp.
  unfold dependency_rule, keep_dependency. now rewrite (basename_path_string top).
Qed.

Lemma occurrences_filter_rule (rule : string -> bool) (l : list string) (s : string) :
  occurrences s (filter rule l) = if rule s then occurrences s l else 0.
Proof.
  unfold occurrences. induction l as [|x l IH]; simpl.
  - now destruct (rule s).
  - destruct (string_dec x s) as [->|Hne].
    + destruct (rule s) eqn:Hs; simpl; [|assumption].
      destruct (string_dec s s); [|congruence]. now rewrite IH.
    + destruct (rule x); simpl; [|assumption].
      destruct (string_dec x s); [congruence | assumption].
Qed.

(** ** Classification *)

(** C4. In a well-formed tree, the relative path of a file occurs in the
    workflow-file sequence exactly once when it starts with the literal
    prefix [.github/workflows] and the filename ends with [.yml] or
    [.yaml] (compared character by character, case included), and does not
    occur otherwise.  So [.github/workflows/ci.yml] occurs once, while
    [.github/workflows/notes.txt] and [.github/workflows/CI.YML] do not
    occur. *)
Theorem workflow_listed_once_iff (top : listing) (p : list string) :
  well_formed top = true ->
  file_at p top = true ->
  let rel_path := path_string p in
  let listed :=
    Py.startswith rel_path ".github/workflows"
    && (Py.endswith (filename p) ".yml" || Py.endswith (filename p) ".yaml") in
  occurrences rel_path (workflow_files top) = (if listed then 1 else 0)
  /\ (listed = true
      <-> (exists rest, rel_path = ".github/workflows" ++ rest)
          /\ exists stem, filename p = stem ++ ".yml" \/ filename p = stem ++ ".yaml")
  /\ (p = [".github"; "workflows"; "ci.yml"] ->
      occurrences ".github/workflows/ci.yml" (workflow_files top) = 1)
  /\ (p = [".github"; "workflows"; "notes.txt"] ->
      occurrences ".github/workflows/notes.txt" (workflow_files top) = 0)
  /\ (p = [".github"; "workflows"; "CI.YML"] ->
      occurrences ".github/workflows/CI.YML" (workflow_files top) = 0).
Proof.
  intros Hwf Hp rel_path listed.
  pose proof (workflow_occurrences top p Hwf Hp) as Hocc.
  rewrite keep_workflow_unfold in Hocc. fold rel_path listed in Hocc.
  split; [exact Hocc|]. split.
  - unfold listed, rel_path. rewrite <- keep_workflow_unfold. apply keep_workflow_iff.
  - repeat split; intros ->; exact Hocc.
Qed.

Lemma workflow_listed_once_iff_witness :
  occurrences ".github/workflows/ci.yml" (workflow_files sample_tree) = 1
  /\ occurrences ".github/workflows/notes.txt" (workflow_files sample_tree) = 0
  /\ occurrences ".github/workflows/CI.YML" (workflow_files sample_tree) = 0
  /\ occurrences "sub/dir/package.json" (workflow_files sample_tree) = 0.
Proof.
  split; [|split; [|split]].
  - destruct (workflow_listed_once_iff sample_tree [".github"; "workflows"; "ci.yml"]
                eq_refl eq_refl) as (_ & _ & H & _).
    exact (H eq_refl).
  - destruct (workflow_listed_once_iff sample_tree [".github"; "workflows"; "notes.txt"]
                eq_refl eq_refl) as (_ & _ & _ & H & _).
    exact (H eq_refl).
  - destruct (workflow_listed_once_iff sample_tree [".github"; "workflows"; "CI.YML"]
                eq_refl eq_refl) as (_ & _ & _ & _ & H).
    exact (H eq_refl).
  - destruct (workflow_listed_once_iff sample_tree ["sub"; "dir"; "package.json"]
                eq_refl eq_refl) as (H & _).
    exact H.
Defined.

(** C5. In a well-formed tree, the relative path of a file occurs in the
    dependency-file sequence exactly once when its last component equals
    one of the twelve manifest names, and does not occur otherwise; the
    directories above the file play no part, so [sub/dir/package.json]
    occurs once. *)
Theorem dependency_listed_once_iff (top : listing) (p : list string) :
  well_formed top = true ->
  file_at p top = true ->
  let rel_path := path_string p in
  let names :=
    [ "package.json"; "requirements.txt"; "Pipfile"; "yarn.lock"; "poetry.lock";
      "Gemfile"; "composer.json"; "Cargo.toml"; "go.mod"; "environment.yml";
      "env.yml"; "setup.py" ] in
  List.length names = 12
  /\ occurrences rel_path (dependency_files top)
     = (if Py.str_in (filename p) names then 1 else 0)
  /\ (occurrences rel_path (dependency_files top) = 1 <-> In (filename p) names)
  /\ (forall root file, p = (root ++ [file])%list -> filename p = file)
  /\ (p = ["sub"; "dir"; "package.json"] ->
      occurrences "sub/dir/package.json" (dependency_files top) = 1).
Proof.
  intros Hwf Hp rel_path names.
  pose proof (dependency_occurrences top p Hwf Hp) as Hocc.
  change (keep_dependency p) with (Py.str_in (filename p) names) in Hocc.
  fold rel_path in Hocc.
  split; [reflexivity|]. split; [exact Hocc|]. split; [|split].
  - rewrite Hocc, <- str_in_iff.
    destruct (Py.str_in (filename p) names); split; congruence.
  - intros root file ->. apply filename_last.
  - intros ->. exact Hocc.
Qed.

Lemma dependency_listed_once_iff_witness :
  occurrences "sub/dir/package.json" (dependency_files sample_tree) = 1
  /\ occurrences ".github/workflows/ci.yml" (dependency_files sample_tree) = 0.
Proof.
  split.
  - destruct (dependency_listed_once_iff sample_tree ["sub"; "dir"; "package.json"]
                eq_refl eq_refl) as (_ & _ & _ & _ & H).
    exact (H eq_refl).
  - destruct (dependency_listed_once_iff sample_tree [".github"; "workflows"; "ci.yml"]
                eq_refl eq_refl) as (_ & H & _).
    exact H.
Defined.

(** C10. Classification is pointwise.  In a well-formed tree each sequence
    is the list of all relative paths filtered by a test on the path
    string alone; hence a path string that occurs equally often among the
    files of two well-formed trees occurs equally often in their
    workflow-file sequences and in their dependency-file sequences,
    whatever else the trees hold. *)
Theorem classification_pointwise (top1 top2 : listing) (rel_path : string) :
  well_formed top1 = true ->
  well_formed top2 = true ->
  occurrences rel_path (rel_paths top1) = occurrences rel_path (rel_paths top2) ->
  workflow_files top1 = filter workflow_rule (rel_paths top1)
  /\ dependency_files top1 = filter dependency_rule (rel_paths top1)
  /\ occurrences rel_path (workflow_files top1)
     = occurrences rel_path (workflow_files top2)
  /\ occurrences rel_path (dependency_files top1)
     = occurrences rel_path (dependency_files top2)
  /\ (In rel_path (workflow_files top1) <-> In rel_path (workflow_files top2))
  /\ (In rel_path (dependency_files top1) <-> In rel_path (dependency_files top2)).
Proof.
  intros Hwf1 Hwf2 Hsame.
  assert (Hw : occurrences rel_path (workflow_files top1)
               = occurrences rel_path (workflow_files top2)).
  { rewrite !workflow_files_rule, !occurrences_filter_rule by assumption.
    now rewrite Hsame. }
  assert (Hd : occurrences rel_path (dependency_files top1)
               = occurrences rel_path (dependency_files top2)).
  { rewrite !dependency_files_rule, !occurrences_filter_rule by assumption.
    now rewrite Hsame. }
  split; [now apply workflow_files_rule|].
  split; [now apply dependency_files_rule|].
  split; [exact Hw|]. split; [exact Hd|].
  unfold occurrences in Hw, Hd.
  split; rewrite !(count_occ_In string_dec); [rewrite Hw | rewrite Hd]; tauto.
Qed.

Lemma classification_pointwise_witness :
  occurrences ".github/workflows/ci.yml" (workflow_files sample_tree)
  = occurrences ".github/workflows/ci.yml" (workflow_files larger_tree)
  /\ occurrences "sub/dir/package.json" (dependency_files sample_tree)
     = occurrences "sub/dir/package.json" (dependency_files larger_tree).
Proof.
  split.
  - destruct (classification_pointwise sample_tree larger_tree
                ".github/workflows/ci.yml" eq_refl eq_refl eq_refl)
      as (_ & _ & H & _).
    exact H.
  - destruct (classification_pointwise sample_tree larger_tree
                "sub/dir/package.json" eq_refl eq_refl eq_refl)
      as (_ & _ & _ & H & _).
    exact H.
Defined.

(** Whatever the workflow-file sequence holds is the relative path of a
    file that passed the workflow test. *)
Lemma workflow_files_sound (top : listing) (s : string) :
  In s (workflow_files top) ->
  exists p, file_at p top = true /\ s = path_string p /\ keep_workflow p = true.
Proof.
  rewrite workflow_files_filter, in_map_iff.
  intros [p [Hs Hp]]. apply filter_In in Hp as [Hp Hk].
  exists p. repeat split; [now apply in_file_paths | now symmetry | assumption].
Qed.

(** C1, as stated, fails: in the tree holding only
    [.github/workflows/go.mod], that path is not in the workflow-file
    sequence, so it is not in both sequences. *)
Lemma go_mod_not_in_both :
  well_formed go_mod_tree = true
  /\ file_at [".github"; "workflows"; "go.mod"] go_mod_tree = true
  /\ workflow_files go_mod_tree = []
  /\ ~ (In ".github/workflows/go.mod" (workflow_files go_mod_tree)
        /\ In ".github/workflows/go.mod" (dependency_files go_mod_tree)).
Proof.
  split; [reflexivity|]. split; [reflexivity|]. split; [reflexivity|].
  intros [H _]. exact H.
Qed.

(** C1, amended.  In a well-formed tree holding a file at
    [.github/workflows/go.mod], that path occurs once in the
    dependency-file sequence and not in the workflow-file sequence, whose
    test asks for a name ending in [.yml] or [.yaml].  The two tests are
    independent: in any well-formed tree a file that passes both, as one
    named [environment.yml] in [.github/workflows] does, occurs once in
    each sequence. *)
Theorem go_mod_dependency_only (top : listing) :
  well_formed top = true ->
  (file_at [".github"; "workflows"; "go.mod"] top = true ->
   occurrences ".github/workflows/go.mod" (workflow_files top) = 0
   /\ occurrences ".github/workflows/go.mod" (dependency_files top) = 1)
  /\ (forall p,
        file_at p top = true ->
        keep_workflow p = true ->
        keep_dependency p = true ->
        occurrences (path_string p) (workflow_files top) = 1
        /\ occurrences (path_string p) (dependency_files top) = 1)
  /\ keep_workflow [".github"; "workflows"; "environment.yml"] = true
  /\ keep_dependency [".github"; "workflows"; "environment.yml"] = true.
Proof.
  intros Hwf. split; [|split; [|split; reflexivity]].
  - intros Hgo. split.
    + exact (workflow_occurrences top _ Hwf Hgo).
    + exact (dependency_occurrences top _ Hwf Hgo).
  - intros p Hp Hw Hd. split.
    + rewrite (workflow_occurrences top p Hwf Hp), Hw. reflexivity.
    + rewrite (dependency_occurrences top p Hwf Hp), Hd. reflexivity.
Qed.

Lemma go_mod_dependency_only_witness :
  (occurrences ".github/workflows/go.mod" (workflow_files go_mod_tree) = 0
   /\ occurrences ".github/workflows/go.mod" (dependency_files go_mod_tree) = 1)
  /\ (occurrences ".github/workflows/go.mod" (workflow_files sample_tree) = 0
      /\ occurrences ".github/workflows/go.mod" (dependency_files sample_tree) = 1)
  /\ (occurrences ".github/workflows/environment.yml" (workflow_files sample_tree) = 1
      /\ occurrences ".github/workflows/environment.yml"
           (dependency_files sample_tree) = 1).
Proof.
  split; [|split].
  - destruct (go_mod_dependency_only go_mod_tree eq_refl) as (H & _).
    exact (H eq_refl).
  - destruct (go_mod_dependency_only sample_tree eq_refl) as (H & _).
    exact (H eq_refl).
  - destruct (go_mod_dependency_only sample_tree eq_refl) as (_ & H & _).
    exact (H [".github"; "workflows"; "environment.yml"] eq_refl eq_refl eq_refl).
Defined.

(** C3 on the code.  A file in [.github/workflows-old], a directory beside
    [.github/workflows], is listed as a workflow file, and so is a file
    [workflows.yml] directly in [.github]: the test compares the
    characters of the path with [WORKFLOW_DIR], not its components. *)
Theorem sibling_directory_listed :
  well_formed sibling_tree = true
  /\ file_at [".github"; "workflows-old"; "ci.yml"] sibling_tree = true
  /\ under_workflow_dir [".github"; "workflows-old"; "ci.yml"] = false
  /\ workflow_files sibling_tree = [".github/workflows-old/ci.yml"]
  /\ under_workflow_dir [".github"; "workflows.yml"] = false
  /\ workflow_files [ (".github", Dir [ ("workflows.yml", File) ]) ]
     = [".github/workflows.yml"].
Proof. repeat split. Qed.

(** The directory test holds of every path with the first two components
    [.github] and [workflows]; the converse is what fails. *)
Lemma under_workflow_dir_prefix (p : list string) :
  under_workflow_dir p = true ->
  Py.startswith (path_string p) WORKFLOW_DIR = true.
Proof.
  destruct p as [|d1 [|d2 [|x p]]]; try discriminate. simpl.
  intros H. apply andb_true_iff in H as [H1 H2].
  apply String.eqb_eq in H1, H2. subst d1 d2.
  apply startswith_iff. unfold path_string.
  exists (String "/" (Py.join "/" (x :: p))). reflexivity.
Qed.

(** ** The local directory name *)

Lemma replace_git_without_dot (s : string) :
  Py.char_in "." s = false -> Py.replace s ".git" "" = s.
Proof.
  unfold Py.replace. induction s as [|c s IH]; intros H; [reflexivity|].
  cbn [Py.char_in] in H. apply orb_false_iff in H as [Hc Hs].
  apply Ascii.eqb_neq in Hc.
  cbn [Py.replace_from String.prefix].
  destruct (ascii_dec "." c) as [Heq|Hne]; [congruence|].
  now rewrite (IH Hs).
Qed.

Lemma replace_git_suffix (stem : string) :
  Py.char_in "." stem = false -> Py.replace (stem ++ ".git") ".git" "" = stem.
Proof.
  unfold Py.replace. induction stem as [|c stem IH]; intros H; [reflexivity|].
  cbn [Py.char_in] in H. apply orb_false_iff in H as [Hc Hs].
  apply Ascii.eqb_neq in Hc.
  change (String c stem ++ ".git") with (String c (stem ++ ".git")).
  cbn [Py.replace_from String.prefix].
  destruct (ascii_dec "." c) as [Heq|Hne]; [congruence|].
  now rewrite (IH Hs).
Qed.

Lemma substring_app_left (r p : string) :
  String.substring 0 (String.length r) (r ++ p) = r.
Proof.
  induction r as [|c r IH]; simpl; [now destruct p | now rewrite IH].
Qed.

Lemma remove_suffix_app (stem suffix : string) :
  remove_suffix (stem ++ suffix) suffix = stem.
Proof.
  unfold remove_suffix.
  assert (H : Py.endswith (stem ++ suffix) suffix = true)
    by (apply endswith_iff; now exists stem).
  rewrite H, length_app.
  replace (String.length stem + String.length suffix - String.length suffix)
    with (String.length stem) by lia.
  apply substring_app_left.
Qed.

(** When the final segment is a dot-free stem followed by [.git], the code
    and the worded rule agree on the stem. *)
Lemma REPO_NAME_plain (url stem : string) :
  Py.last_item (Py.split "/" (Py.rstrip "/" url)) = (stem ++ ".git")%string ->
  Py.char_in "." stem = false ->
  REPO_NAME url = stem /\ spec_local_name url = stem.
Proof.
  intros Hseg Hstem. unfold REPO_NAME, spec_local_name. rewrite Hseg.
  split; [now apply replace_git_suffix | apply remove_suffix_app].
Qed.

(** C2 on the code.  For [https://example.com/foo.git] the name is [foo].
    But [replace] deletes every [.git] of the final segment, not a suffix
    only: the repository [.github] gets the name [hub], [my.github.io] the
    name [myhub.io], where the worded rule keeps both names whole. *)
Theorem REPO_NAME_deletes_inner_git :
  REPO_NAME "https://example.com/foo.git" = "foo"
  /\ REPO_NAME "https://example.com/foo.git/" = "foo"
  /\ REPO_NAME "https://github.com/octo-org/.github" = "hub"
  /\ spec_local_name "https://github.com/octo-org/.github" = ".github"
  /\ REPO_NAME "https://example.com/my.github.io" = "myhub.io"
  /\ spec_local_name "https://example.com/my.github.io" = "my.github.io"
  /\ REPO_NAME "https://github.com/octo-org/.github"
     <> spec_local_name "https://github.com/octo-org/.github".
Proof. repeat split. discriminate. Qed.

(** ** The report *)

(** C8. The empty tree gives two empty sequences, and the report of two
    empty sequences is the two headings, each followed by the
    [(none found)] line, and no path line. *)
Theorem empty_tree_report :
  classify [] = ([], [])
  /\ forall m,
      report [] [] m
      = (Done tt,
         {| m_fs := m_fs m;
            m_trace := (m_trace m
                        ++ [ Print (newline ++ "Workflow files found:");
                             Print "  (none found)";
                             Print (newline ++ "Dependency files found:");
                             Print "  (none found)" ])%list |}).
Proof.
  split; [reflexivity|]. intros m.
  unfold report, print_section, print, emit, bind. simpl.
  now rewrite <- !app_assoc.
Qed.

(** ** The run *)

Lemma for_each_print (prefix : string) (l : list string) :
  forall m,
    for_each (fun p => print (prefix ++ p)) l m
    = (Done tt,
       {| m_fs := m_fs m;
          m_trace := (m_trace m ++ map (fun p => Print (prefix ++ p)) l)%list |}).
Proof.
  induction l as [|x l IH]; intros [disk trace]; simpl.
  - unfold ret. simpl. now rewrite app_nil_r.
  - unfold bind, print, emit. simpl. rewrite IH. simpl.
    now rewrite <- app_assoc.
Qed.

Lemma print_section_lines (title : string) (paths : list string) (m : machine) :
  print_section title paths m
  = (Done tt,
     {| m_fs := m_fs m;
        m_trace := (m_trace m ++ map Print (section_lines title paths))%list |}).
Proof.
  unfold print_section, section_lines, bind, print at 1, emit.
  destruct paths as [|x paths].
  - unfold print, emit. simpl. now rewrite <- app_assoc.
  - rewrite for_each_print. cbn [m_fs m_trace].
    rewrite <- app_assoc. cbn [map app]. now rewrite map_map.
Qed.

(** The report never leaves the interpreter; it adds its lines. *)
Lemma report_prints (workflow dependency : list string) (m : machine) :
  report workflow dependency m
  = (Done tt,
     {| m_fs := m_fs m;
        m_trace := (m_trace m
                    ++ map Print (report_lines (workflow, dependency)))%list |}).
Proof.
  unfold report, bind. rewrite !print_section_lines. cbn [m_fs m_trace].
  unfold report_lines. cbn [fst snd]. now rewrite map_app, app_assoc.
Qed.

Lemma run_without_url (git : list string -> fs -> Z * fs)
    (argv : list string) (disk : fs) :
  truthy (nth_error argv 1) = false ->
  run git argv disk = (1%Z, [Print usage]).
Proof.
  intros H. unfold run, main, check_usage, bind. rewrite H. reflexivity.
Qed.

(** The run with a URL, in full: the announcement, the one command, and
    then either the diagnostic or the report of what is found. *)
Lemma run_with_url (git : list string -> fs -> Z * fs)
    (argv : list string) (url : string) (disk : fs) :
  nth_error argv 1 = Some url -> url <> EmptyString ->
  run git argv disk
  = let name := REPO_NAME url in
    let present := fs_exists disk name in
    let command := if present then pull_command name else clone_command url in
    let announce :=
      if present
      then "Repository " ++ name ++ " already exists. Pulling latest changes ..."
      else "Cloning repository " ++ url ++ " ..." in
    if Z.eqb (fst (git command disk)) 0
    then (0%Z,
          ([Print announce; Spawn command]
           ++ map Print (report_lines (found_on (snd (git command disk)) name)))%list)
    else (if present then 3%Z else 2%Z,
          [Print announce; Spawn command;
           Print (if present then "Failed to pull latest changes."
                  else "Failed to clone repository.")]).
Proof.
  intros Hurl Hne. apply String.eqb_neq in Hne.
  unfold run, main, check_usage, bind. rewrite Hurl.
  cbn [truthy]. rewrite Hne. cbn [negb print emit ret sys_exit m_fs m_trace].
  unfold acquire, bind, os_path_exists. cbn [m_fs m_trace].
  destruct (fs_exists disk (REPO_NAME url)); cbn [negb];
    unfold print, emit, subprocess_run; cbn [m_fs m_trace].
  - destruct (git (pull_command (REPO_NAME url)) disk) as [code disk'].
    cbn [fst snd app]. destruct (Z.eqb code 0); cbn [negb ret sys_exit m_fs m_trace app].
    + unfold walk, found_on. cbn [m_fs].
      destruct (classify_walk _) as [w d]. rewrite report_prints. reflexivity.
    + reflexivity.
  - destruct (git (clone_command url) disk) as [code disk'].
    cbn [fst snd app]. destruct (Z.eqb code 0); cbn [negb ret sys_exit m_fs m_trace app].
    + unfold walk, found_on. cbn [m_fs].
      destruct (classify_walk _) as [w d]. rewrite report_prints. reflexivity.
    + reflexivity.
Qed.

Lemma spawned_prints (lines : list string) : spawned (map Print lines) = [].
Proof. induction lines as [|x l IH]; simpl; [reflexivity | exact IH]. Qed.

(** C6. Exit status: 1 when no URL argument is supplied, 2 when the clone
    ends with a non-zero return code, 3 when the pull does, 0 when the
    subprocess succeeds.  After each failure the run ends with its
    diagnostic: nothing is classified or reported. *)
Theorem exit_status (git : list string -> fs -> Z * fs)
    (argv : list string) (disk : fs) :
  (List.length argv <= 1 -> run git argv disk = (1%Z, [Print usage]))
  /\ forall url,
      nth_error argv 1 = Some url -> url <> EmptyString ->
      let name := REPO_NAME url in
      (fs_exists disk name = false ->
       fst (git (clone_command url) disk) <> 0%Z ->
       run git argv disk
       = (2%Z, [ Print ("Cloning repository " ++ url ++ " ...");
                 Spawn (clone_command url);
                 Print "Failed to clone repository." ]))
      /\ (fs_exists disk name = true ->
          fst (git (pull_command name) disk) <> 0%Z ->
          run git argv disk
          = (3%Z, [ Print ("Repository " ++ name
                             ++ " already exists. Pulling latest changes ...");
                    Spawn (pull_command name);
                    Print "Failed to pull latest changes." ]))
      /\ (fst (git (if fs_exists disk name
                    then pull_command name else clone_command url) disk) = 0%Z ->
          fst (run git argv disk) = 0%Z
          /\ exists acquisition,
              snd (run git argv disk)
              = (acquisition
                 ++ map Print (report_lines
                                 (found_on
                                    (snd (git (if fs_exists disk name
                                               then pull_command name
                                               else clone_command url) disk))
                                    name)))%list).
Proof.
  split.
  - intros Hlen. apply run_without_url.
    destruct argv as [|a [|b argv]]; simpl in *; [reflexivity | reflexivity | lia].
  - intros url Hurl Hne name.
    pose proof (run_with_url git argv url disk Hurl Hne) as Hrun.
    cbv zeta in Hrun. fold name in Hrun.
    split; [|split].
    + intros Hex Hcode. rewrite Hex in Hrun.
      apply Z.eqb_neq in Hcode. now rewrite Hcode in Hrun.
    + intros Hex Hcode. rewrite Hex in Hrun.
      apply Z.eqb_neq in Hcode. now rewrite Hcode in Hrun.
    + intros Hcode. rewrite Hcode in Hrun. cbn [Z.eqb] in Hrun.
      rewrite Hrun. split; [reflexivity|]. eexists. reflexivity.
Qed.

Lemma exit_status_witness :
  run (git_fails 128) ["scan.py"] no_disk = (1%Z, [Print usage])
  /\ fst (run (git_fails 128) ["scan.py"; "https://example.com/foo.git"] no_disk) = 2%Z
  /\ fst (run (git_fails 1) ["scan.py"; "https://example.com/foo.git"]
            (disk_with "foo" sample_tree)) = 3%Z
  /\ fst (run (git_leaves "foo" sample_tree)
            ["scan.py"; "https://example.com/foo.git"] no_disk) = 0%Z.
Proof.
  split; [|split; [|split]].
  - destruct (exit_status (git_fails 128) ["scan.py"] no_disk) as [H _].
    apply H. simpl. lia.
  - destruct (exit_status (git_fails 128)
                ["scan.py"; "https://example.com/foo.git"] no_disk) as [_ H].
    destruct (H "https://example.com/foo.git" eq_refl) as (H2 & _); [discriminate|].
    rewrite H2; [reflexivity | reflexivity | discriminate].
  - destruct (exit_status (git_fails 1)
                ["scan.py"; "https://example.com/foo.git"]
                (disk_with "foo" sample_tree)) as [_ H].
    destruct (H "https://example.com/foo.git" eq_refl) as (_ & H3 & _); [discriminate|].
    rewrite H3; [reflexivity | reflexivity | discriminate].
  - destruct (exit_status (git_leaves "foo" sample_tree)
                ["scan.py"; "https://example.com/foo.git"] no_disk) as [_ H].
    destruct (H "https://example.com/foo.git" eq_refl) as (_ & _ & H0); [discriminate|].
    apply H0. reflexivity.
Defined.

(** C7. With a URL given, the run starts exactly one command: the pull
    inside the derived name when an entry of that name exists, whatever it
    holds, and otherwise the clone of the URL with depth 1. *)
Theorem clone_or_pull (git : list string -> fs -> Z * fs)
    (argv : list string) (url : string) (disk : fs) :
  nth_error argv 1 = Some url ->
  url <> EmptyString ->
  spawned (snd (run git argv disk))
  = [ if fs_exists disk (REPO_NAME url)
      then ["git"; "-C"; REPO_NAME url; "pull"]
      else ["git"; "clone"; "--depth"; "1"; url] ].
Proof.
  intros Hurl Hne. rewrite (run_with_url git argv url disk Hurl Hne). cbv zeta.
  destruct (fs_exists disk (REPO_NAME url));
    destruct (Z.eqb _ 0); cbn [snd]; try reflexivity;
    cbn [app spawned flat_map];
    change (flat_map _ (map Print ?l)) with (spawned (map Print l));
    now rewrite spawned_prints.
Qed.

Lemma clone_or_pull_witness :
  spawned (snd (run (git_fails 1) ["scan.py"; "https://example.com/foo.git"]
                  (disk_with "foo" [])))
  = [["git"; "-C"; "foo"; "pull"]]
  /\ spawned (snd (run (git_leaves "foo" sample_tree)
                     ["scan.py"; "https://example.com/foo.git"] no_disk))
     = [["git"; "clone"; "--depth"; "1"; "https://example.com/foo.git"]].
Proof.
  split.
  - apply (clone_or_pull (git_fails 1) ["scan.py"; "https://example.com/foo.git"]
             "https://example.com/foo.git" (disk_with "foo" []));
      [reflexivity | discriminate].
  - apply (clone_or_pull (git_leaves "foo" sample_tree)
             ["scan.py"; "https://example.com/foo.git"]
             "https://example.com/foo.git" no_disk);
      [reflexivity | discriminate].
Defined.

(** C9. An empty string given as the URL argument does what no argument
    does: the usage line is printed, the status is 1, and no command is
    started. *)
Theorem empty_url_is_usage_error (git : list string -> fs -> Z * fs)
    (script_name : string) (disk : fs) :
  run git [script_name; ""] disk = (1%Z, [Print usage])
  /\ run git [script_name; ""] disk = run git [script_name] disk
  /\ spawned (snd (run git [script_name; ""] disk)) = [].
Proof. repeat split. Qed.

(** The run on an empty working copy, end to end. *)
Lemma run_on_empty_tree (git : list string -> fs -> Z * fs)
    (script_name url : string) (disk disk' : fs) :
  url <> EmptyString ->
  fs_exists disk (REPO_NAME url) = false ->
  git (clone_command url) disk = (0%Z, disk') ->
  fs_listing disk' (REPO_NAME url) = Some [] ->
  run git [script_name; url] disk
  = (0%Z, [ Print ("Cloning repository " ++ url ++ " ...");
            Spawn (clone_command url);
            Print (newline ++ "Workflow files found:");
            Print "  (none found)";
            Print (newline ++ "Dependency files found:");
            Print "  (none found)" ]).
Proof.
  intros Hne Hex Hgit Hls.
  rewrite (run_with_url git [script_name; url] url disk eq_refl Hne). cbv zeta.
  rewrite Hex, Hgit. cbn [fst snd Z.eqb]. unfold found_on. rewrite Hls.
  reflexivity.
Qed.

(** * Further properties of the script *)

(** ** The local directory name, continued *)

Lemma rstrip_stripped_char (chars s : string) (c : ascii) :
  Py.char_in c chars = true ->
  Py.rstrip chars (s ++ String c EmptyString) = Py.rstrip chars s.
Proof.
  intros Hc. induction s as [|d s IH].
  - cbn [append Py.rstrip]. now rewrite Hc.
  - change (String d s ++ String c "") with (String d (s ++ String c "")).
    cbn [Py.rstrip]. now rewrite IH.
Qed.

(** A string that ends with a piece free of the separator is left alone. *)
Lemma rstrip_keeps (sep : ascii) (a seg : string) :
  seg <> EmptyString -> Py.char_in sep seg = false ->
  Py.rstrip (String sep EmptyString) (a ++ seg) = (a ++ seg)%string.
Proof.
  intros Hne Hfree.
  assert (Hseg : Py.rstrip (String sep "") seg = seg).
  { clear a. induction seg as [|c seg IH]; [congruence|].
    cbn [Py.char_in] in Hfree. apply orb_false_iff in Hfree as [Hc Hfree].
    cbn [Py.rstrip]. destruct seg as [|d seg].
    - cbn [Py.rstrip Py.char_in]. rewrite Ascii.eqb_sym, Hc. reflexivity.
    - rewrite IH by (discriminate || assumption). reflexivity. }
  induction a as [|c a IH]; [exact Hseg|].
  change (String c a ++ seg) with (String c (a ++ seg)).
  cbn [Py.rstrip]. rewrite IH.
  destruct (a ++ seg) eqn:Hcat; [|reflexivity].
  destruct a; [simpl in Hcat; congruence | discriminate].
Qed.

Lemma split_pieces_free (sep : ascii) (s : string) :
  Forall (fun x => Py.char_in sep x = false) (Py.split sep s).
Proof.
  induction s as [|c s IH]; cbn [Py.split].
  - constructor; [reflexivity | constructor].
  - destruct (Ascii.eqb c sep) eqn:Hc.
    + constructor; [reflexivity | exact IH].
    + destruct (Py.split sep s) as [|h t]; constructor.
      * cbn [Py.char_in]. now rewrite Ascii.eqb_sym, Hc.
      * constructor.
      * cbn [Py.char_in]. rewrite Ascii.eqb_sym, Hc. now inversion IH.
      * now inversion IH.
Qed.

Lemma last_item_free (sep : ascii) (l : list string) :
  Forall (fun x => Py.char_in sep x = false) l ->
  Py.char_in sep (Py.last_item l) = false.
Proof.
  unfold Py.last_item. induction l as [|x l IH]; intros H; [reflexivity|].
  inversion H as [|? ? Hx Hl]; subst. destruct l as [|y l]; [exact Hx|].
  exact (IH Hl).
Qed.

Lemma char_in_app (c : ascii) (s t : string) :
  Py.char_in c (s ++ t) = Py.char_in c s || Py.char_in c t.
Proof.
  induction s as [|d s IH]; [reflexivity|].
  change (String d s ++ t) with (String d (s ++ t)).
  cbn [Py.char_in]. now rewrite IH, orb_assoc.
Qed.

(** Deleting occurrences brings in no character that was not there. *)
Lemma replace_delete_free (c : ascii) (old s : string) :
  Py.char_in c s = false ->
  forall skip, Py.char_in c (Py.replace_from old EmptyString skip s) = false.
Proof.
  induction s as [|d s IH]; intros H skip; [reflexivity|].
  cbn [Py.char_in] in H. apply orb_false_iff in H as [Hd Hs].
  cbn [Py.replace_from]. destruct skip as [|k]; [|now apply IH].
  destruct (String.prefix old (String d s)).
  - cbn [append]. now apply IH.
  - cbn [Py.char_in]. rewrite Hd. now apply IH.
Qed.

(** What precedes the last separator plays no part in the last piece. *)
Lemma split_app_sep (sep : ascii) (a rest : string) :
  exists front, front <> []
                /\ Py.split sep (a ++ String sep rest) = (front ++ Py.split sep rest)%list.
Proof.
  induction a as [|c a IH].
  - exists [EmptyString]. split; [discriminate|].
    cbn [append Py.split]. now rewrite Ascii.eqb_refl.
  - destruct IH as [front [Hne Heq]].
    change (String c a ++ String sep rest) with (String c (a ++ String sep rest)).
    cbn [Py.split]. rewrite Heq. destruct (Ascii.eqb c sep).
    + exists (EmptyString :: front). split; [discriminate | reflexivity].
    + destruct front as [|h t]; [congruence|].
      exists (String c h :: t). split; [discriminate | reflexivity].
Qed.

Lemma last_item_app (front l : list string) :
  l <> [] -> Py.last_item (front ++ l) = Py.last_item l.
Proof.
  unfold Py.last_item. intros Hne. induction front as [|x front IH]; [reflexivity|].
  cbn [app]. destruct (front ++ l)%list eqn:Hcat.
  - apply app_eq_nil in Hcat as [_ Hl]. congruence.
  - exact IH.
Qed.

(** X1. One more slash at the end of the URL does not change the derived
    name. *)
Theorem REPO_NAME_trailing_slash (url : string) :
  REPO_NAME (url ++ "/") = REPO_NAME url.
Proof.
  unfold REPO_NAME. now rewrite rstrip_stripped_char.
Qed.

(** X2. The derived name is a function of the final segment alone: for a
    non-empty segment [seg] without "/", whatever precedes its separator,
    the name is [seg] with its occurrences of [.git] deleted, and the same
    holds of a URL that is the segment itself. *)
Theorem REPO_NAME_last_segment (base seg : string) :
  seg <> EmptyString ->
  Py.char_in "/" seg = false ->
  REPO_NAME (base ++ "/" ++ seg) = Py.replace seg ".git" ""
  /\ REPO_NAME seg = Py.replace seg ".git" "".
Proof.
  intros Hne Hfree. unfold REPO_NAME. split.
  - change (base ++ "/" ++ seg) with (base ++ String "/" seg).
    replace (base ++ String "/" seg) with ((base ++ "/") ++ seg)
      by (clear; induction base as [|c b IH]; simpl; [reflexivity | now rewrite IH]).
    rewrite rstrip_keeps by assumption.
    replace ((base ++ "/") ++ seg) with (base ++ String "/" seg)
      by (clear; induction base as [|c b IH]; simpl; [reflexivity | now rewrite IH]).
    destruct (split_app_sep "/" base seg) as [front [Hfront Heq]].
    rewrite Heq, last_item_app by apply split_not_nil.
    now rewrite split_single.
  - pose proof (rstrip_keeps "/" "" seg Hne Hfree) as Hkeep.
    cbn [append] in Hkeep. rewrite Hkeep. now rewrite split_single.
Qed.

Lemma REPO_NAME_last_segment_witness :
  REPO_NAME ("ssh://git@host:22/team" ++ "/" ++ "tool.git") = "tool"
  /\ REPO_NAME "tool.git" = "tool".
Proof.
  exact (REPO_NAME_last_segment "ssh://git@host:22/team" "tool.git"
           ltac:(discriminate) eq_refl).
Defined.

Lemma REPO_NAME_segment (base seg : string) :
  seg <> EmptyString ->
  Py.char_in "/" seg = false ->
  REPO_NAME (base ++ String "/" seg) = Py.replace seg ".git" "".
Proof.
  intros Hne Hfree. unfold REPO_NAME.
  assert (Hassoc : base ++ String "/" seg = (base ++ "/") ++ seg)
    by (clear; induction base as [|c b IH]; simpl; [reflexivity | now rewrite IH]).
  rewrite Hassoc, rstrip_keeps by assumption. rewrite <- Hassoc.
  destruct (split_app_sep "/" base seg) as [front [Hfront Heq]].
  rewrite Heq, last_item_app by apply split_not_nil.
  now rewrite split_single.
Qed.

(** X3. The derived name never holds a "/".  That does not make it the
    name of an entry inside the current directory: for every URL that
    ends in [/..] it is [..], and for every URL that ends in [/.git] it is
    empty. *)
Theorem REPO_NAME_single_component (url base : string) :
  Py.char_in "/" (REPO_NAME url) = false
  /\ REPO_NAME (base ++ "/..") = ".."
  /\ REPO_NAME (base ++ "/.git") = "".
Proof.
  split; [|split].
  - unfold REPO_NAME, Py.replace. apply replace_delete_free.
    apply last_item_free. apply split_pieces_free.
  - change (base ++ "/..") with (base ++ String "/" "..").
    rewrite REPO_NAME_segment; [reflexivity | discriminate | reflexivity].
  - change (base ++ "/.git") with (base ++ String "/" ".git").
    rewrite REPO_NAME_segment; [reflexivity | discriminate | reflexivity].
Qed.

(** ** Classification, continued *)

(** X4. In a well-formed tree neither sequence lists a path twice. *)
Theorem sequences_without_repeats (top : listing) :
  well_formed top = true ->
  NoDup (workflow_files top) /\ NoDup (dependency_files top).
Proof.
  intros Hwf. rewrite workflow_files_rule, dependency_files_rule by assumption.
  split; apply NoDup_filter; now apply NoDup_path_strings.
Qed.

Lemma sequences_without_repeats_witness :
  NoDup (workflow_files monorepo_tree) /\ NoDup (dependency_files monorepo_tree).
Proof. exact (sequences_without_repeats monorepo_tree eq_refl). Defined.

(** X5. Membership in full, for any tree and any string: a string is in
    the workflow-file (dependency-file) sequence exactly when it is the
    relative path of some non-directory entry that passes the workflow
    (dependency) test.  Nothing else is ever listed. *)
Theorem listed_iff_file_passing (top : listing) (s : string) :
  (In s (workflow_files top)
   <-> exists p, file_at p top = true /\ s = path_string p
                 /\ is_workflow s (filename p) = true)
  /\ (In s (dependency_files top)
      <-> exists p, file_at p top = true /\ s = path_string p
                    /\ is_dependency (filename p) = true).
Proof.
  rewrite workflow_files_filter, dependency_files_filter, !in_map_iff.
  split; split.
  - intros [p [Hs Hp]]. apply filter_In in Hp as [Hp Hk]. subst s.
    exists p. repeat split; [now apply in_file_paths | exact Hk].
  - intros [p [Hp [Hs Hk]]]. subst s. exists p. split; [reflexivity|].
    apply filter_In. split; [now apply in_file_paths | exact Hk].
  - intros [p [Hs Hp]]. apply filter_In in Hp as [Hp Hk]. subst s.
    exists p. repeat split; [now apply in_file_paths | exact Hk].
  - intros [p [Hp [Hs Hk]]]. subst s. exists p. split; [reflexivity|].
    apply filter_In. split; [now apply in_file_paths | exact Hk].
Qed.

Lemma dir_at_not_nil (p : list string) (es : listing) :
  dir_at p es = true -> p <> [].
Proof. destruct p; [discriminate | discriminate]. Qed.

Lemma dir_at_single (d : string) (es : listing) :
  dir_at [d] es = true <-> exists sub, In (d, Dir sub) es.
Proof.
  simpl. rewrite existsb_exists. split.
  - intros [[name k] [He Hc]]. simpl in Hc.
    apply andb_true_iff in Hc as [Hn Hk]. apply String.eqb_eq in Hn. subst name.
    destruct k as [|sub]; [discriminate|]. now exists sub.
  - intros [sub He]. exists (d, Dir sub). split; [assumption|].
    simpl. now rewrite String.eqb_refl.
Qed.

Lemma dir_at_cons (d : string) (p : list string) (es : listing) :
  p <> [] ->
  (dir_at (d :: p) es = true
   <-> exists sub, In (d, Dir sub) es /\ dir_at p sub = true).
Proof.
  intros Hp. destruct p as [|x p]; [congruence|].
  change (dir_at (d :: x :: p) es)
    with (existsb (fun e => String.eqb (fst e) d
                            && match snd e with
                               | Dir sub => dir_at (x :: p) sub
                               | File => false
                               end) es).
  rewrite existsb_exists. split.
  - intros [[name k] [He Hc]]. simpl in Hc.
    apply andb_true_iff in Hc as [Hn Hk]. apply String.eqb_eq in Hn. subst name.
    destruct k as [|sub]; [discriminate|]. now exists sub.
  - intros [sub [He Hf]]. exists (d, Dir sub). split; [assumption|].
    simpl. apply andb_true_iff. split; [apply String.eqb_refl | assumption].
Qed.

Lemma dir_at_names_ok (p : list string) :
  forall es, well_formed_node (Dir es) = true -> dir_at p es = true ->
             Forall (fun x => Py.char_in "/" x = false) p.
Proof.
  induction p as [|d p IH]; intros es Hwf Hp; [constructor|].
  destruct (well_formed_dir es Hwf) as [Hok [_ Hsub]].
  rewrite Forall_forall in Hok.
  destruct p as [|x p].
  - constructor; [|constructor].
    apply dir_at_single in Hp as [sub He].
    apply Hok. now apply (in_map fst) in He.
  - apply dir_at_cons in Hp as [sub [He Hp]]; [|discriminate].
    constructor.
    + apply Hok. now apply (in_map fst) in He.
    + exact (IH sub (Hsub d (Dir sub) He) Hp).
Qed.

Lemma entry_unique (es : listing) (name : string) (k1 k2 : node) :
  NoDup (map fst es) -> In (name, k1) es -> In (name, k2) es -> k1 = k2.
Proof.
  induction es as [|[n k] es IH]; intros Hnd H1 H2; [destruct H1|].
  simpl in Hnd. apply NoDup_cons_iff in Hnd as [Hn Hnd].
  destruct H1 as [H1|H1], H2 as [H2|H2].
  - congruence.
  - inversion H1; subst. exfalso. apply Hn. now apply (in_map fst) in H2.
  - inversion H2; subst. exfalso. apply Hn. now apply (in_map fst) in H1.
  - now apply IH.
Qed.

(** In a well-formed tree a path leads to a file or to a directory, not to
    both. *)
Lemma file_dir_exclusive (p : list string) :
  forall es, well_formed_node (Dir es) = true ->
             file_at p es = true -> dir_at p es = true -> False.
Proof.
  induction p as [|d p IH]; intros es Hwf Hf Hd; [discriminate|].
  destruct (well_formed_dir es Hwf) as [_ [Hnd Hsub]].
  destruct p as [|x p].
  - apply dir_at_single in Hd as [sub Hd].
    apply file_at_single in Hf. unfold nondirs_of in Hf.
    apply in_map_iff in Hf as [[n k] [Hn Hk]]. simpl in Hn. subst n.
    apply filter_In in Hk as [Hin Hk]. simpl in Hk.
    rewrite (entry_unique es d k (Dir sub) Hnd Hin Hd) in Hk. discriminate.
  - apply file_at_cons in Hf as [sub1 [H1 Hf]]; [|discriminate].
    apply dir_at_cons in Hd as [sub2 [H2 Hd]]; [|discriminate].
    pose proof (entry_unique es d _ _ Hnd H1 H2) as Heq. inversion Heq; subst sub2.
    exact (IH sub1 (Hsub d (Dir sub1) H1) Hf Hd).
Qed.

(** X6. A directory is never listed, whatever its name: in a well-formed
    tree the relative path of a directory is in neither sequence, even if
    the directory is called [package.json] or sits in [.github/workflows]
    under a name ending in [.yml]. *)
Theorem directory_never_listed (top : listing) (p : list string) :
  well_formed top = true ->
  dir_at p top = true ->
  ~ In (path_string p) (workflow_files top)
  /\ ~ In (path_string p) (dependency_files top).
Proof.
  intros Hwf Hd.
  assert (Hno : forall q, file_at q top = true -> path_string p = path_string q -> False).
  { intros q Hq Heq.
    assert (Hpq : p = q).
    { rewrite <- (split_join "/" p), <- (split_join "/" q).
      - unfold path_string in Heq. now rewrite Heq.
      - now apply file_at_not_nil in Hq.
      - exact (file_at_names_ok q top Hwf Hq).
      - now apply dir_at_not_nil in Hd.
      - exact (dir_at_names_ok p top Hwf Hd). }
    subst q. exact (file_dir_exclusive p top Hwf Hq Hd). }
  split; intros Hin.
  - apply workflow_files_sound in Hin as [q [Hq [Heq _]]]. exact (Hno q Hq Heq).
  - rewrite dependency_files_filter in Hin. apply in_map_iff in Hin as [q [Heq Hq]].
    apply filter_In in Hq as [Hq _]. apply in_file_paths in Hq.
    exact (Hno q Hq (eq_sym Heq)).
Qed.

Lemma directory_never_listed_witness :
  ~ In "package.json" (dependency_files monorepo_tree)
  /\ ~ In ".github/workflows/build.yml" (workflow_files monorepo_tree).
Proof.
  split.
  - exact (proj2 (directory_never_listed monorepo_tree ["package.json"]
                    eq_refl eq_refl)).
  - exact (proj1 (directory_never_listed monorepo_tree
                    [".github"; "workflows"; "build.yml"] eq_refl eq_refl)).
Defined.

Lemma split_head_prefix (sep : ascii) (x rest : string) :
  Py.char_in sep x = false ->
  exists h t, Py.split sep (x ++ rest) = (x ++ h)%string :: t.
Proof.
  induction x as [|c x IH]; intros Hfree.
  - cbn [append]. destruct (Py.split sep rest) as [|h t] eqn:Hs.
    + now apply split_not_nil in Hs.
    + now exists h, t.
  - cbn [Py.char_in] in Hfree. apply orb_false_iff in Hfree as [Hc Hx].
    destruct (IH Hx) as [h [t Heq]].
    change (String c x ++ rest) with (String c (x ++ rest)).
    cbn [Py.split]. rewrite Ascii.eqb_sym, Hc, Heq.
    now exists h, t.
Qed.

(** X7. Where workflow files are looked for.  In a well-formed tree every
    listed workflow file lies in the top-level directory [.github], in or
    below an entry of it whose name begins with [workflows]; a
    [.github/workflows] directory further down the tree contributes
    nothing. *)
Theorem workflow_files_location (top : listing) (s : string) :
  well_formed top = true ->
  In s (workflow_files top) ->
  exists second rest,
    file_at (".github" :: second :: rest) top = true
    /\ s = path_string (".github" :: second :: rest)
    /\ Py.startswith second "workflows" = true.
Proof.
  intros Hwf Hin.
  apply workflow_files_sound in Hin as [p [Hp [Hs Hk]]].
  apply keep_workflow_iff in Hk as [[r Hr] _].
  assert (Hsplit : Py.split "/" (path_string p) = p).
  { apply split_join; [now apply file_at_not_nil in Hp|].
    exact (file_at_names_ok p top Hwf Hp). }
  rewrite Hr in Hsplit.
  change (".github/workflows" ++ r) with (".github" ++ String "/" ("workflows" ++ r))
    in Hsplit.
  rewrite split_piece in Hsplit by reflexivity.
  destruct (split_head_prefix "/" "workflows" r eq_refl) as [h [t Hw]].
  rewrite Hw in Hsplit. subst p.
  exists ("workflows" ++ h)%string, t. repeat split; try assumption.
  apply startswith_iff. now exists h.
Qed.

Lemma workflow_files_location_witness :
  exists second rest,
    file_at (".github" :: second :: rest) monorepo_tree = true
    /\ ".github/workflows/reusable/lint.yml" = path_string (".github" :: second :: rest)
    /\ Py.startswith second "workflows" = true.
Proof.
  apply (workflow_files_location monorepo_tree ".github/workflows/reusable/lint.yml");
    [reflexivity | vm_compute; tauto].
Defined.

(** X8. Every file in or below the directory [.github/workflows] of the
    top directory whose name ends in [.yml] or [.yaml] is listed, once, at
    any depth below that directory. *)
Theorem workflow_directory_files_listed (top : listing) (p : list string) :
  well_formed top = true ->
  file_at p top = true ->
  under_workflow_dir p = true ->
  Py.endswith (filename p) ".yml" || Py.endswith (filename p) ".yaml" = true ->
  occurrences (path_string p) (workflow_files top) = 1.
Proof.
  intros Hwf Hp Hunder Hext.
  rewrite (workflow_occurrences top p Hwf Hp), keep_workflow_unfold.
  apply under_workflow_dir_prefix in Hunder. unfold WORKFLOW_DIR in Hunder.
  now rewrite Hunder, Hext.
Qed.

Lemma workflow_directory_files_listed_witness :
  occurrences ".github/workflows/reusable/lint.yml" (workflow_files monorepo_tree) = 1.
Proof.
  exact (workflow_directory_files_listed monorepo_tree
           [".github"; "workflows"; "reusable"; "lint.yml"]
           eq_refl eq_refl eq_refl eq_refl).
Defined.

(** ** The walk is top-down and compositional *)

Lemma flat_map_ext_in {A B} (f g : A -> list B) (l : list A) :
  (forall x, In x l -> f x = g x) -> flat_map f l = flat_map g l.
Proof.
  induction l as [|x l IH]; intros H; simpl; [reflexivity|].
  rewrite (H x) by now left. f_equal. apply IH. intros y Hy. apply H. now right.
Qed.

Lemma map_flat_map {A B C} (f : A -> list B) (g : B -> C) (l : list A) :
  map g (flat_map f l) = flat_map (fun x => map g (f x)) l.
Proof.
  induction l as [|x l IH]; simpl; [reflexivity|]. now rewrite map_app, IH.
Qed.

Lemma filter_flat_map {A B} (f : A -> list B) (keep : B -> bool) (l : list A) :
  filter keep (flat_map f l) = flat_map (fun x => filter keep (f x)) l.
Proof.
  induction l as [|x l IH]; simpl; [reflexivity|]. now rewrite filter_app, IH.
Qed.

(** Walking a directory found at [root] gives the paths of walking it on
    its own, each behind [root]. *)
Lemma walk_paths_root (es : listing) :
  forall root,
    walk_paths (walk_node root (Dir es))
    = map (app root) (walk_paths (walk_node [] (Dir es))).
Proof.
  induction es as [es IH] using listing_induction. intros root.
  rewrite !walk_paths_dir, map_app, map_map, map_flat_map. f_equal.
  apply flat_map_ext_in. intros [name k] He. cbn [fst snd app].
  destruct k as [|sub]; [reflexivity|].
  rewrite (IH name sub He (root ++ [name])%list), (IH name sub He [name]), map_map.
  apply map_ext. intros q. now rewrite <- app_assoc.
Qed.

Lemma file_paths_top_down (top : listing) :
  file_paths top
  = (map (fun f => [f]) (nondirs_of top)
     ++ flat_map (fun e => match snd e with
                           | Dir sub => map (cons (fst e)) (file_paths sub)
                           | File => []
                           end) top)%list.
Proof.
  unfold file_paths, os_walk. rewrite walk_paths_dir. f_equal.
  apply flat_map_ext. intros [name k]. cbn [fst snd app].
  destruct k as [|sub]; [reflexivity|].
  now rewrite walk_paths_root.
Qed.

Lemma path_string_cons (name : string) (p : list string) :
  p <> [] -> path_string (name :: p) = (name ++ "/" ++ path_string p)%string.
Proof. destruct p; [congruence | reflexivity]. Qed.

Lemma filename_cons (name : string) (p : list string) :
  p <> [] -> filename (name :: p) = filename p.
Proof. destruct p; [congruence | reflexivity]. Qed.

Lemma file_paths_not_nil (top : listing) (p : list string) :
  In p (file_paths top) -> p <> [].
Proof. intros H. apply in_file_paths in H. now apply file_at_not_nil in H. Qed.

(** X9. The walk is top-down and its relative paths compose: the paths of
    a tree are its own files, in listing order, and then, for each
    sub-directory in listing order, the paths of that sub-directory
    walked on its own, each behind the sub-directory's name and "/". *)
Theorem rel_paths_top_down (top : listing) :
  rel_paths top
  = (nondirs_of top
     ++ flat_map (fun e => match snd e with
                           | Dir sub => map (fun s => fst e ++ "/" ++ s)%string
                                            (rel_paths sub)
                           | File => []
                           end) top)%list.
Proof.
  unfold rel_paths. rewrite file_paths_top_down, map_app, map_map, map_flat_map.
  f_equal.
  - rewrite <- (map_id (nondirs_of top)) at 2. now apply map_ext.
  - apply flat_map_ext. intros [name k]. cbn [fst snd].
    destruct k as [|sub]; [reflexivity|]. rewrite !map_map.
    apply map_ext_in. intros p Hp. apply path_string_cons.
    now apply file_paths_not_nil in Hp.
Qed.

Lemma filter_keep_dependency_cons (name : string) (l : list (list string)) :
  (forall p, In p l -> p <> []) ->
  filter keep_dependency (map (cons name) l) = map (cons name) (filter keep_dependency l).
Proof.
  induction l as [|p l IH]; intros H; [reflexivity|].
  assert (Hp : keep_dependency (name :: p) = keep_dependency p).
  { unfold keep_dependency. rewrite filename_cons; [reflexivity|]. apply H. now left. }
  assert (IH' : filter keep_dependency (map (cons name) l)
                = map (cons name) (filter keep_dependency l)).
  { apply IH. intros q Hq. apply H. now right. }
  cbn [map filter]. rewrite Hp, IH'.
  now destruct (keep_dependency p).
Qed.

(** X10. The dependency test looks at the filename only, so the
    dependency files of a tree are the manifests of its top directory, in
    listing order, and then, for each sub-directory in listing order, the
    dependency files of that sub-directory scanned on its own, each behind
    the sub-directory's name and "/". *)
Theorem dependency_files_compose (top : listing) :
  dependency_files top
  = (filter is_dependency (nondirs_of top)
     ++ flat_map (fun e => match snd e with
                           | Dir sub => map (fun s => fst e ++ "/" ++ s)%string
                                            (dependency_files sub)
                           | File => []
                           end) top)%list.
Proof.
  rewrite dependency_files_filter, file_paths_top_down, filter_app, map_app.
  f_equal.
  - induction (nondirs_of top) as [|f l IH]; simpl; [reflexivity|].
    change (keep_dependency [f]) with (is_dependency f).
    destruct (is_dependency f); simpl; now rewrite IH.
  - rewrite filter_flat_map, map_flat_map.
    apply flat_map_ext. intros [name k]. cbn [fst snd].
    destruct k as [|sub]; [reflexivity|].
    rewrite filter_keep_dependency_cons by apply file_paths_not_nil.
    rewrite dependency_files_filter, !map_map.
    apply map_ext_in. intros p Hp. apply path_string_cons.
    apply filter_In in Hp as [Hp _]. now apply file_paths_not_nil in Hp.
Qed.

(** ** The run, continued *)

Lemma truthy_some (argv : list string) :
  truthy (nth_error argv 1) = true ->
  exists url, nth_error argv 1 = Some url /\ url <> EmptyString.
Proof.
  destruct (nth_error argv 1) as [url|]; [|discriminate].
  cbn [truthy]. intros H. exists url. split; [reflexivity|].
  apply negb_true_iff in H. now apply String.eqb_neq.
Qed.

(** X12. Only the second element of the argument vector is read: the
    script's name and any further arguments change nothing. *)
Theorem only_first_argument_read (git : list string -> fs -> Z * fs)
    (name1 name2 url : string) (more1 more2 : list string) (disk : fs) :
  run git (name1 :: url :: more1) disk = run git (name2 :: url :: more2) disk.
Proof.
  destruct (String.eqb url EmptyString) eqn:Hurl.
  - rewrite !run_without_url; [reflexivity | |]; cbn [nth_error truthy];
      now rewrite Hurl.
  - apply String.eqb_neq in Hurl.
    now rewrite (run_with_url git (name1 :: url :: more1) url disk eq_refl Hurl),
                (run_with_url git (name2 :: url :: more2) url disk eq_refl Hurl).
Qed.

(** X13. When the derived name exists, the URL is used for nothing but
    that name: two URLs with the same derived name give the same run, the
    same announcement, the same pull and the same report, wherever they
    point. *)
Theorem existing_name_hides_url (git : list string -> fs -> Z * fs)
    (script_name url1 url2 : string) (disk : fs) :
  url1 <> EmptyString ->
  url2 <> EmptyString ->
  REPO_NAME url1 = REPO_NAME url2 ->
  fs_exists disk (REPO_NAME url1) = true ->
  run git [script_name; url1] disk = run git [script_name; url2] disk.
Proof.
  intros Hne1 Hne2 Hname Hex.
  rewrite (run_with_url git [script_name; url1] url1 disk eq_refl Hne1),
          (run_with_url git [script_name; url2] url2 disk eq_refl Hne2).
  cbv zeta. rewrite <- Hname, Hex. reflexivity.
Qed.

Lemma existing_name_hides_url_witness :
  run (git_leaves "foo" sample_tree) ["scan.py"; "https://example.com/foo.git"]
    (disk_with "foo" [])
  = run (git_leaves "foo" sample_tree) ["scan.py"; "ssh://elsewhere.org/team/foo/"]
      (disk_with "foo" []).
Proof.
  apply (existing_name_hides_url (git_leaves "foo" sample_tree) "scan.py"
           "https://example.com/foo.git" "ssh://elsewhere.org/team/foo/"
           (disk_with "foo" []));
    [discriminate | discriminate | reflexivity | reflexivity].
Defined.

(** X14. When the command returns 0 but the derived name is then not a
    readable directory, the walk yields nothing and the error is
    swallowed: the run reports [(none found)] twice and ends with status
    0. *)
Theorem missing_directory_reports_none (git : list string -> fs -> Z * fs)
    (argv : list string) (url : string) (disk : fs) :
  nth_error argv 1 = Some url ->
  url <> EmptyString ->
  let command := if fs_exists disk (REPO_NAME url)
                 then pull_command (REPO_NAME url) else clone_command url in
  fst (git command disk) = 0%Z ->
  fs_listing (snd (git command disk)) (REPO_NAME url) = None ->
  fst (run git argv disk) = 0%Z
  /\ spawned (snd (run git argv disk)) = [command]
  /\ skipn 1 (printed (snd (run git argv disk)))
     = [ newline ++ "Workflow files found:"; "  (none found)";
         newline ++ "Dependency files found:"; "  (none found)" ].
Proof.
  intros Hurl Hne command Hcode Hls.
  rewrite (run_with_url git argv url disk Hurl Hne). cbv zeta.
  fold command. rewrite Hcode. cbn [Z.eqb fst snd].
  unfold found_on. rewrite Hls. repeat split.
Qed.

Lemma missing_directory_reports_none_witness :
  fst (run (git_leaves ".github" sample_tree)
         ["scan.py"; "https://github.com/octo-org/.github"] no_disk) = 0%Z
  /\ spawned (snd (run (git_leaves ".github" sample_tree)
                     ["scan.py"; "https://github.com/octo-org/.github"] no_disk))
     = [clone_command "https://github.com/octo-org/.github"]
  /\ skipn 1 (printed (snd (run (git_leaves ".github" sample_tree)
                              ["scan.py"; "https://github.com/octo-org/.github"]
                              no_disk)))
     = [ newline ++ "Workflow files found:"; "  (none found)";
         newline ++ "Dependency files found:"; "  (none found)" ].
Proof.
  apply (missing_directory_reports_none (git_leaves ".github" sample_tree)
           ["scan.py"; "https://github.com/octo-org/.github"]
           "https://github.com/octo-org/.github" no_disk);
    [reflexivity | discriminate | reflexivity | reflexivity].
Defined.

(** ** The larger sample at work *)

Example classify_monorepo :
  classify monorepo_tree
  = ( [".github/workflows/release.yaml"; ".github/workflows/reusable/lint.yml"],
      ["setup.py"; "service/go.mod"; "service/Cargo.toml"] ).
Proof. reflexivity. Qed.

Example rel_paths_monorepo :
  rel_paths monorepo_tree
  = [ "setup.py"; ".github/workflows/release.yaml";
      ".github/workflows/reusable/lint.yml"; "package.json/index.js";
      "service/go.mod"; "service/Cargo.toml";
      "service/.github/workflows/ci.yml" ].
Proof. reflexivity. Qed.

(** ** The run with uncaught exceptions *)

(** With a [print] and a [subprocess.run] that cannot raise, the
    statements are the script of the first part. *)
Lemma main_with_ideal (git : list string -> fs -> Z * fs) (argv : list string) :
  main_with print (subprocess_run git) argv = main git argv.
Proof. reflexivity. Qed.

Lemma machine_eta (m : machine) :
  {| m_fs := m_fs m; m_trace := (m_trace m ++ [])%list |} = m.
Proof. destruct m as [disk trace]. cbn. now rewrite app_nil_r. Qed.

Lemma printable_prefix_app (encodable : string -> bool) (l1 l2 : list string) :
  printable_prefix encodable (l1 ++ l2)
  = if forallb encodable l1
    then (l1 ++ printable_prefix encodable l2)%list
    else printable_prefix encodable l1.
Proof.
  induction l1 as [|x l1 IH]; [reflexivity|].
  cbn [app printable_prefix forallb]. destruct (encodable x); [|reflexivity].
  cbn [andb]. rewrite IH. now destruct (forallb encodable l1).
Qed.

Lemma printable_prefix_all (encodable : string -> bool) (l : list string) :
  forallb encodable l = true -> printable_prefix encodable l = l.
Proof.
  induction l as [|x l IH]; [reflexivity|]. cbn [forallb printable_prefix].
  intros H. apply andb_true_iff in H as [Hx Hl]. now rewrite Hx, IH.
Qed.

(** Printing a list of lines one by one: the lines before the first that
    cannot be encoded are printed, and the loop falls through exactly
    when there is no such line. *)
Lemma say_lines (encodable : string -> bool) (lines : list string) :
  forall m,
    for_each (print_or_raise encodable) lines m
    = (if forallb encodable lines then Done tt else Exit 1%Z,
       {| m_fs := m_fs m;
          m_trace := (m_trace m
                      ++ map Print (printable_prefix encodable lines))%list |}).
Proof.
  induction lines as [|x lines IH]; intros m.
  - cbn. unfold ret. now rewrite machine_eta.
  - cbn [for_each forallb printable_prefix]. unfold bind, print_or_raise at 1.
    destruct (encodable x).
    + unfold print, emit. rewrite IH. cbn [m_fs m_trace andb map].
      now rewrite <- app_assoc.
    + unfold uncaught, sys_exit. cbn [andb map]. now rewrite machine_eta.
Qed.

Lemma for_each_map {A B} (f : A -> B) (body : B -> script unit) (l : list A) :
  for_each (fun x => body (f x)) l = for_each body (map f l).
Proof.
  induction l as [|x l IH]; [reflexivity|]. cbn [for_each map]. now rewrite IH.
Qed.

Lemma print_section_or_raise (encodable : string -> bool)
    (title : string) (paths : list string) (m : machine) :
  print_section_with (print_or_raise encodable) title paths m
  = for_each (print_or_raise encodable) (section_lines title paths) m.
Proof.
  unfold print_section_with, section_lines. cbn [for_each].
  unfold bind. destruct (print_or_raise encodable (newline ++ title) m) as [[[]|code] m'];
    [|reflexivity].
  destruct paths as [|x paths].
  - cbn [for_each]. unfold bind, ret.
    now destruct (print_or_raise encodable "  (none found)" m') as [[[]|code] m''].
  - now rewrite (for_each_map (fun p => "  - " ++ p) (print_or_raise encodable)).
Qed.

Lemma for_each_app {A} (body : A -> script unit) (l1 l2 : list A) (m : machine) :
  for_each body (l1 ++ l2) m = (for_each body l1 ;; for_each body l2) m.
Proof.
  revert m. induction l1 as [|x l1 IH]; intros m; [reflexivity|].
  cbn [app for_each]. unfold bind. destruct (body x m) as [[[]|code] m']; [|reflexivity].
  rewrite IH. reflexivity.
Qed.

Lemma report_or_raise (encodable : string -> bool)
    (workflow dependency : list string) (m : machine) :
  report_with (print_or_raise encodable) workflow dependency m
  = for_each (print_or_raise encodable) (report_lines (workflow, dependency)) m.
Proof.
  unfold report_with, report_lines. cbn [fst snd]. rewrite for_each_app.
  unfold bind. rewrite print_section_or_raise.
  destruct (for_each _ (section_lines "Workflow files found:" workflow) m)
    as [[[]|code] m']; [|reflexivity].
  apply print_section_or_raise.
Qed.

(** X15. The report on a stdout that cannot encode every line.  Its lines
    are the two headings, each followed by one ["  - " ++ path] line per
    path in sequence order or by the [(none found)] line for an empty
    sequence.  They are printed in that order up to the first line that
    cannot be encoded, where [print] raises and the run ends with status 1
    and a truncated report; the report is complete, and the script goes
    on, exactly when every line can be encoded.  The disk is not
    touched. *)
Theorem report_until_unencodable (encodable : string -> bool)
    (workflow dependency : list string) (m : machine) :
  let lines :=
    ([(newline ++ "Workflow files found:")%string]
     ++ match workflow with
        | [] => ["  (none found)"]
        | _ :: _ => map (fun p => ("  - " ++ p)%string) workflow
        end
     ++ [(newline ++ "Dependency files found:")%string]
     ++ match dependency with
        | [] => ["  (none found)"]
        | _ :: _ => map (fun p => ("  - " ++ p)%string) dependency
        end)%list in
  report_with (print_or_raise encodable) workflow dependency m
  = (if forallb encodable lines then Done tt else Exit 1%Z,
     {| m_fs := m_fs m;
        m_trace := (m_trace m
                    ++ map Print (printable_prefix encodable lines))%list |})
  /\ (forallb encodable lines = true -> printable_prefix encodable lines = lines)
  /\ exists rest, lines = (printable_prefix encodable lines ++ rest)%list.
Proof.
  intros lines. split; [|split].
  - rewrite report_or_raise. apply say_lines.
  - apply printable_prefix_all.
  - clear. induction lines as [|x l [rest IH]]; [now exists []|].
    cbn [printable_prefix]. destruct (encodable x).
    + exists rest. cbn [app]. now rewrite <- IH.
    + now exists (x :: l).
Qed.

Lemma run_with_exceptions_no_url (encodable : string -> bool)
    (tool : list string -> fs -> option (Z * fs)) (argv : list string) (disk : fs) :
  truthy (nth_error argv 1) = false ->
  run_with_exceptions encodable tool argv disk
  = (1%Z, if encodable usage then [Print usage] else []).
Proof.
  intros H. unfold run_with_exceptions, main_with, check_usage_with, bind.
  rewrite H. cbn [negb]. unfold print_or_raise.
  now destruct (encodable usage).
Qed.

(** The run with a URL, exceptions included. *)
Lemma run_with_exceptions_url (encodable : string -> bool)
    (tool : list string -> fs -> option (Z * fs))
    (argv : list string) (url : string) (disk : fs) :
  nth_error argv 1 = Some url -> url <> EmptyString ->
  run_with_exceptions encodable tool argv disk
  = let name := REPO_NAME url in
    let present := fs_exists disk name in
    let command := if present then pull_command name else clone_command url in
    let announce :=
      if present
      then "Repository " ++ name ++ " already exists. Pulling latest changes ..."
      else "Cloning repository " ++ url ++ " ..." in
    let diagnostic :=
      if present then "Failed to pull latest changes."
      else "Failed to clone repository." in
    if encodable announce then
      match tool command disk with
      | None => (1%Z, [Print announce])
      | Some (code, disk') =>
          if Z.eqb code 0 then
            (if forallb encodable (report_lines (found_on disk' name))
             then 0%Z else 1%Z,
             ([Print announce; Spawn command]
              ++ map Print (printable_prefix encodable
                              (report_lines (found_on disk' name))))%list)
          else if encodable diagnostic then
            (if present then 3%Z else 2%Z,
             [Print announce; Spawn command; Print diagnostic])
          else (1%Z, [Print announce; Spawn command])
      end
    else (1%Z, []).
Proof.
  intros Hurl Hne. apply String.eqb_neq in Hne.
  unfold run_with_exceptions, main_with, check_usage_with, bind. rewrite Hurl.
  cbn [truthy]. rewrite Hne. cbn [negb ret m_fs m_trace].
  unfold acquire_with, bind, os_path_exists. cbn [m_fs m_trace].
  destruct (fs_exists disk (REPO_NAME url)); cbn [negb]; cbv zeta.
  - unfold print_or_raise at 1.
    destruct (encodable ("Repository " ++ REPO_NAME url
                           ++ " already exists. Pulling latest changes ..."));
      [|reflexivity].
    unfold print, emit, run_or_raise. cbn [m_fs m_trace app].
    destruct (tool (pull_command (REPO_NAME url)) disk) as [[code disk']|];
      [|reflexivity].
    destruct (Z.eqb code 0); cbn [negb].
    + unfold ret, walk, found_on. cbn [m_fs].
      destruct (classify_walk _) as [w d]. rewrite report_or_raise, say_lines.
      cbn [m_fs m_trace]. now destruct (forallb encodable (report_lines (w, d))).
    + unfold print_or_raise.
      now destruct (encodable "Failed to pull latest changes.").
  - unfold print_or_raise at 1.
    destruct (encodable ("Cloning repository " ++ url ++ " ...")); [|reflexivity].
    unfold print, emit, run_or_raise. cbn [m_fs m_trace app].
    destruct (tool (clone_command url) disk) as [[code disk']|]; [|reflexivity].
    destruct (Z.eqb code 0); cbn [negb].
    + unfold ret, walk, found_on. cbn [m_fs].
      destruct (classify_walk _) as [w d]. rewrite report_or_raise, say_lines.
      cbn [m_fs m_trace]. now destruct (forallb encodable (report_lines (w, d))).
    + unfold print_or_raise.
      now destruct (encodable "Failed to clone repository.").
Qed.

Lemma printed_prints (lines : list string) : printed (map Print lines) = lines.
Proof. induction lines as [|x l IH]; [reflexivity|]. cbn. now f_equal. Qed.

(** X11. The exit status read backwards, with the exceptions nobody
    catches counted in (a line stdout cannot encode, a git that cannot be
    started: both end the run with status 1).  Status 0 only if a
    non-empty URL is given, the command starts and returns 0 and every
    line of the report can be encoded; status 2 only if the derived name
    does not exist and the clone returns non-zero; status 3 only if the
    derived name exists and the pull returns non-zero. *)
Theorem exit_status_causes (encodable : string -> bool)
    (tool : list string -> fs -> option (Z * fs))
    (argv : list string) (disk : fs) :
  let status := fst (run_with_exceptions encodable tool argv disk) in
  (status = 0%Z ->
   exists url disk',
     nth_error argv 1 = Some url /\ url <> EmptyString
     /\ tool (if fs_exists disk (REPO_NAME url)
              then pull_command (REPO_NAME url)
              else clone_command url) disk = Some (0%Z, disk')
     /\ forallb encodable (report_lines (found_on disk' (REPO_NAME url))) = true)
  /\ (status = 2%Z ->
      exists url code disk',
        nth_error argv 1 = Some url
        /\ fs_exists disk (REPO_NAME url) = false
        /\ tool (clone_command url) disk = Some (code, disk')
        /\ code <> 0%Z)
  /\ (status = 3%Z ->
      exists url code disk',
        nth_error argv 1 = Some url
        /\ fs_exists disk (REPO_NAME url) = true
        /\ tool (pull_command (REPO_NAME url)) disk = Some (code, disk')
        /\ code <> 0%Z).
Proof.
  intros status. unfold status. clear status.
  destruct (truthy (nth_error argv 1)) eqn:Htruthy.
  - destruct (truthy_some argv Htruthy) as [url [Hurl Hne]].
    rewrite (run_with_exceptions_url encodable tool argv url disk Hurl Hne).
    cbv zeta.
    destruct (fs_exists disk (REPO_NAME url)) eqn:Hex;
      (destruct (encodable _); [|cbn [fst]; repeat split; discriminate]);
      (destruct (tool _ disk) as [[code disk']|] eqn:Htool;
         [|cbn [fst]; repeat split; discriminate]);
      (destruct (Z.eqb code 0) eqn:Hcode;
         [apply Z.eqb_eq in Hcode; subst code;
          destruct (forallb encodable _) eqn:Hall; cbn [fst];
          repeat split; try discriminate;
          intros _; exists url, disk'; rewrite Hex; repeat split; assumption
         |apply Z.eqb_neq in Hcode;
          destruct (encodable _); cbn [fst]; repeat split; try discriminate;
          intros _; exists url, code, disk'; repeat split; assumption]).
  - rewrite (run_with_exceptions_no_url encodable tool argv disk Htruthy).
    cbn [fst]. repeat split; discriminate.
Qed.

Lemma exit_status_causes_witness :
  (exists url disk',
      nth_error ["scan.py"; "https://example.com/foo.git"] 1 = Some url
      /\ url <> EmptyString
      /\ starts (git_leaves "foo" sample_tree)
           (if fs_exists no_disk (REPO_NAME url)
            then pull_command (REPO_NAME url) else clone_command url) no_disk
         = Some (0%Z, disk')
      /\ forallb any_line (report_lines (found_on disk' (REPO_NAME url))) = true)
  /\ (exists url code disk',
         nth_error ["scan.py"; "https://example.com/foo.git"] 1 = Some url
         /\ fs_exists no_disk (REPO_NAME url) = false
         /\ starts (git_fails 128) (clone_command url) no_disk = Some (code, disk')
         /\ code <> 0%Z)
  /\ (exists url code disk',
         nth_error ["scan.py"; "https://example.com/foo.git"] 1 = Some url
         /\ fs_exists (disk_with "foo" sample_tree) (REPO_NAME url) = true
         /\ starts (git_fails 1) (pull_command (REPO_NAME url))
              (disk_with "foo" sample_tree) = Some (code, disk')
         /\ code <> 0%Z).
Proof.
  split; [|split].
  - destruct (exit_status_causes any_line (starts (git_leaves "foo" sample_tree))
                ["scan.py"; "https://example.com/foo.git"] no_disk) as (H & _).
    exact (H eq_refl).
  - destruct (exit_status_causes ascii_only (starts (git_fails 128))
                ["scan.py"; "https://example.com/foo.git"] no_disk) as (_ & H & _).
    exact (H eq_refl).
  - destruct (exit_status_causes ascii_only (starts (git_fails 1))
                ["scan.py"; "https://example.com/foo.git"]
                (disk_with "foo" sample_tree)) as (_ & _ & H).
    exact (H eq_refl).
Defined.

Lemma report_until_unencodable_witness :
  report_with (print_or_raise ascii_only) ["ok.yml"; odd_name; "later.yml"] ["go.mod"]
    {| m_fs := no_disk; m_trace := [] |}
  = (Exit 1%Z,
     {| m_fs := no_disk;
        m_trace := [ Print (newline ++ "Workflow files found:");
                     Print "  - ok.yml" ] |})
  /\ printable_prefix ascii_only
       [ (newline ++ "Workflow files found:")%string; "  - ok.yml";
         (newline ++ "Dependency files found:")%string; "  (none found)" ]
     = [ (newline ++ "Workflow files found:")%string; "  - ok.yml";
         (newline ++ "Dependency files found:")%string; "  (none found)" ].
Proof.
  split.
  - destruct (report_until_unencodable ascii_only
                ["ok.yml"; odd_name; "later.yml"] ["go.mod"]
                {| m_fs := no_disk; m_trace := [] |}) as (H & _).
    exact H.
  - destruct (report_until_unencodable ascii_only ["ok.yml"] []
                {| m_fs := no_disk; m_trace := [] |}) as (_ & H & _).
    exact (H eq_refl).
Defined.



(** X17. When git can be started and stdout can encode every line the
    script of the first part prints, nothing raises: the run with
    exceptions is that run, status and trace. *)
Theorem ideal_run_when_nothing_raises (encodable : string -> bool)
    (git : list string -> fs -> Z * fs) (argv : list string) (disk : fs) :
  forallb encodable (printed (snd (run git argv disk))) = true ->
  run_with_exceptions encodable (starts git) argv disk = run git argv disk.
Proof.
  destruct (truthy (nth_error argv 1)) eqn:Htruthy.
  - destruct (truthy_some argv Htruthy) as [url [Hurl Hne]].
    rewrite (run_with_url git argv url disk Hurl Hne),
            (run_with_exceptions_url encodable (starts git) argv url disk Hurl Hne).
    cbv zeta. unfold starts.
    destruct (git _ disk) as [code disk']. cbn [fst snd].
    destruct (Z.eqb code 0); cbn [snd].
    + cbn [app printed flat_map].
      change (flat_map _ (map Print ?l)) with (printed (map Print l)).
      rewrite printed_prints. cbn [forallb]. intros H.
      apply andb_true_iff in H as [Ha Hl]. rewrite Ha, Hl.
      now rewrite (printable_prefix_all _ _ Hl).
    + cbn [printed flat_map app forallb]. intros H.
      apply andb_true_iff in H as [Ha H]. apply andb_true_iff in H as [Hd _].
      rewrite Ha.
      destruct (fs_exists disk (REPO_NAME url)); now rewrite Hd.
  - rewrite (run_without_url git argv disk Htruthy),
            (run_with_exceptions_no_url encodable (starts git) argv disk Htruthy).
    cbn [snd printed flat_map app forallb]. intros H.
    apply andb_true_iff in H as [Hu _]. now rewrite Hu.
Qed.

Lemma ideal_run_when_nothing_raises_witness :
  run_with_exceptions ascii_only (starts (git_leaves "foo" sample_tree))
    ["scan.py"; "https://example.com/foo.git"] no_disk
  = run (git_leaves "foo" sample_tree)
      ["scan.py"; "https://example.com/foo.git"] no_disk.
Proof.
  apply (ideal_run_when_nothing_raises ascii_only (git_leaves "foo" sample_tree)
           ["scan.py"; "https://example.com/foo.git"] no_disk).
  reflexivity.
Defined.

(** The run of a tree with a name stdout cannot encode: the report stops
    at that line and the status is 1, although git returned 0. *)
Example run_with_unencodable_name :
  run_with_exceptions ascii_only
    (starts (git_leaves "foo" (workflows_dir ["a.yml"; odd_name; "z.yml"])))
    ["scan.py"; "https://example.com/foo.git"] no_disk
  = (1%Z,
     [ Print "Cloning repository https://example.com/foo.git ...";
       Spawn ["git"; "clone"; "--depth"; "1"; "https://example.com/foo.git"];
       Print (newline ++ "Workflow files found:");
       Print "  - .github/workflows/a.yml" ]).
Proof. reflexivity. Qed.

Example run_without_git :
  run_with_exceptions ascii_only no_git ["scan.py"; "https://example.com/foo.git"]
    no_disk
  = (1%Z, [ Print "Cloning repository https://example.com/foo.git ..." ]).
Proof. reflexivity. Qed.
